(** * CAT3626 six-channel LED dimmer driver (cat3626.c)

    A shallow embedding of the driver and the properties of its register
    update algorithm, its channel pairing and its set-up and tear-down
    paths.

    Conventions.
    - C integers are [Z]; a conversion to an 8-bit type is written out
      ([to_u8], [to_char]).
    - The chip sits behind an SMBus model ([i2c_bus]): a register file, a
      script that says which of the coming transactions fail, and the
      trace of the transactions made so far.
    - [struct cat3626_data] is reached through the client's clientdata
      slot; a C pointer to one of its LEDs is the index of the LED in
      [leds].  Code that walks the array runs in a state-and-crash monad
      [M]: an index outside the array, or a NULL dereference, is a
      [Crash] that keeps the state reached. *)

From Stdlib Require Import ZArith Lia Bool.
From stdpp Require Import base list strings.

Local Open Scope Z_scope.

(** ** C integer conversions *)

(** Conversion to [u8]: reduction modulo 256. *)
Definition to_u8 (x : Z) : Z := x mod 256.

(** Conversion to [char].  The byte is kept in its unsigned form; with a
    signed [char] the values differ by a multiple of 256, and the driver
    only compares two [char]s with each other and hands them to [u8]
    parameters, so the bytes on the bus are the same. *)
Definition to_char (x : Z) : Z := x mod 256.

Definition EIO : Z := 5.
Definition ENOMEM : Z := 12.
Definition EINVAL : Z := 22.

Definition ADDR_REG_A : Z := 0.
Definition ADDR_REG_B : Z := 1.
Definition ADDR_REG_C : Z := 2.
Definition ADDR_REGEN : Z := 3.

Definition LED_OFF : Z := 0.

(** ** The SMBus and the chip behind it *)

Inductive bus_op :=
| BusRead (command : Z) (result : Z)
| BusWrite (command : Z) (value : Z) (result : Z).

(** [faults] scripts the coming transactions, one entry each: a negative
    entry makes the transaction fail with that errno, any other entry
    (or none) lets it go through. *)
Record i2c_bus := {
  regs : Z -> Z;
  faults : list Z;
  trace : list bus_op
}.

Definition next_fault (fs : list Z) : option Z :=
  match fs with
  | e :: _ => if e <? 0 then Some e else None
  | [] => None
  end.

Definition write_reg (command value : Z) (f : Z -> Z) : Z -> Z :=
  fun a => if a =? command then value else f a.

(** [s32 i2c_smbus_read_byte_data(client, u8 command)]: the register's
    byte, or a negative errno. *)
Definition i2c_smbus_read_byte_data (command : Z) (b : i2c_bus) : Z * i2c_bus :=
  let command := to_u8 command in
  let res := match next_fault (faults b) with
             | Some e => e
             | None => regs b command
             end in
  (res, {| regs := regs b;
           faults := tail (faults b);
           trace := trace b ++ [BusRead command res] |}).

(** [s32 i2c_smbus_write_byte_data(client, u8 command, u8 value)]: 0, or
    a negative errno, in which case the register keeps its value. *)
Definition i2c_smbus_write_byte_data (command value : Z) (b : i2c_bus) : Z * i2c_bus :=
  let command := to_u8 command in
  let value := to_u8 value in
  match next_fault (faults b) with
  | Some e =>
      (e, {| regs := regs b;
             faults := tail (faults b);
             trace := trace b ++ [BusWrite command value e] |})
  | None =>
      (0, {| regs := write_reg command value (regs b);
             faults := tail (faults b);
             trace := trace b ++ [BusWrite command value 0] |})
  end.

(** A bus on which no coming transaction fails. *)
Definition bus_healthy (b : i2c_bus) : Prop :=
  Forall (fun e => 0 <= e) (faults b).

(** The write transactions of a trace, failed ones included. *)
Definition is_write (op : bus_op) : bool :=
  match op with BusWrite _ _ _ => true | BusRead _ _ => false end.

Definition writes (t : list bus_op) : list bus_op := List.filter is_write t.

(** ** Driver data *)

Inductive brightness_fn := Fn_cat3626_brightness_set.
Inductive work_fn := Fn_cat3626_led_work.

(** [struct led_classdev], the fields the driver fills in; [registered]
    stands for the device the LED core creates on registration. *)
Record led_classdev := {
  ldev_name : string;
  brightness : Z;
  max_brightness : Z;
  brightness_set : option brightness_fn;
  registered : bool
}.

(** [struct work_struct]: the handler and whether the item is queued. *)
Record work_struct := {
  work_func : option work_fn;
  work_pending : bool
}.

Record cat3626_led := {
  id : Z;
  i2c_reg : Z;
  client : option Z;
  name : string;
  ldev : led_classdev;
  work : work_struct;
  maximum_reg_value : Z;
  present_reg_value : Z;
  partner : option Z
}.

Record cat3626_platform_data := { pdata_leds : list cat3626_led }.

Record cat3626_chip_info := { num_leds : Z }.

(** [struct cat3626_data]; [update_lock], [idev] and [work] carry no
    state in a sequential run and are left out. *)
Record cat3626_data := {
  data_client : option Z;
  leds : list cat3626_led;
  chip_info : option cat3626_chip_info
}.

Definition cat3626 : Z := 0.

Definition cat3626_chip_info_tbl : list cat3626_chip_info :=
  [ {| num_leds := 6 |} ].

(** Field assignments. *)
Definition set_id (v : Z) (l : cat3626_led) : cat3626_led :=
  {| id := v; i2c_reg := i2c_reg l; client := client l; name := name l;
     ldev := ldev l; work := work l;
     maximum_reg_value := maximum_reg_value l;
     present_reg_value := present_reg_value l; partner := partner l |}.

Definition set_i2c_reg (v : Z) (l : cat3626_led) : cat3626_led :=
  {| id := id l; i2c_reg := v; client := client l; name := name l;
     ldev := ldev l; work := work l;
     maximum_reg_value := maximum_reg_value l;
     present_reg_value := present_reg_value l; partner := partner l |}.

Definition set_client (v : option Z) (l : cat3626_led) : cat3626_led :=
  {| id := id l; i2c_reg := i2c_reg l; client := v; name := name l;
     ldev := ldev l; work := work l;
     maximum_reg_value := maximum_reg_value l;
     present_reg_value := present_reg_value l; partner := partner l |}.

Definition set_name (v : string) (l : cat3626_led) : cat3626_led :=
  {| id := id l; i2c_reg := i2c_reg l; client := client l; name := v;
     ldev := ldev l; work := work l;
     maximum_reg_value := maximum_reg_value l;
     present_reg_value := present_reg_value l; partner := partner l |}.

Definition set_ldev (v : led_classdev) (l : cat3626_led) : cat3626_led :=
  {| id := id l; i2c_reg := i2c_reg l; client := client l; name := name l;
     ldev := v; work := work l;
     maximum_reg_value := maximum_reg_value l;
     present_reg_value := present_reg_value l; partner := partner l |}.

Definition set_work (v : work_struct) (l : cat3626_led) : cat3626_led :=
  {| id := id l; i2c_reg := i2c_reg l; client := client l; name := name l;
     ldev := ldev l; work := v;
     maximum_reg_value := maximum_reg_value l;
     present_reg_value := present_reg_value l; partner := partner l |}.

Definition set_present_reg_value (v : Z) (l : cat3626_led) : cat3626_led :=
  {| id := id l; i2c_reg := i2c_reg l; client := client l; name := name l;
     ldev := ldev l; work := work l;
     maximum_reg_value := maximum_reg_value l;
     present_reg_value := v; partner := partner l |}.

Definition set_partner (v : option Z) (l : cat3626_led) : cat3626_led :=
  {| id := id l; i2c_reg := i2c_reg l; client := client l; name := name l;
     ldev := ldev l; work := work l;
     maximum_reg_value := maximum_reg_value l;
     present_reg_value := present_reg_value l; partner := v |}.

Definition set_registered (v : bool) (d : led_classdev) : led_classdev :=
  {| ldev_name := ldev_name d; brightness := brightness d;
     max_brightness := max_brightness d;
     brightness_set := brightness_set d; registered := v |}.

Definition set_pending (v : bool) (w : work_struct) : work_struct :=
  {| work_func := work_func w; work_pending := v |}.

(** ** The register update: [cat3626_setled] *)

(** "Update based on desired LED setting": the enable byte wanted, from
    the byte read; the channel's bit is cleared for a level of 0 and set
    otherwise. *)
Definition update_enable (led : cat3626_led) (reg : Z) : Z :=
  let toset := reg in
  if 0 =? present_reg_value led
  then to_char (Z.land toset (Z.lnot (Z.shiftl 1 (id led))))
  else to_char (Z.lor toset (Z.shiftl 1 (id led))).

(** The body runs between [mutex_lock] and [mutex_unlock] on the chip's
    [update_lock]; the model runs it in one piece.  No return value of
    the bus is looked at: a failed read leaves its errno in [reg]. *)
Definition cat3626_setled (led : cat3626_led) (b : i2c_bus) : i2c_bus :=
  let '(r, b) := i2c_smbus_read_byte_data ADDR_REGEN b in
  let reg := to_char r in
  let toset := update_enable led reg in
  let b :=
    if negb (toset =? reg)
    then snd (i2c_smbus_write_byte_data ADDR_REGEN toset b)
    else b in
  let b :=
    if 0 <? present_reg_value led
    then snd (i2c_smbus_write_byte_data (i2c_reg led) (present_reg_value led) b)
    else b in
  b.

(** ** The driver state and its monad *)

(** What the driver's code can reach: the clientdata slot of the I2C
    client (NULL until [cat3626_probe] fills it), the bus, and the LED
    core's answers to the coming [led_classdev_register] calls (a
    negative entry is a refusal with that errno). *)
Record system := {
  clientdata : option cat3626_data;
  bus : i2c_bus;
  classdev_script : list Z
}.

Inductive fault :=
| OutOfBounds (index : Z)
| NullPointer
| OutOfFuel.

(** A run either returns, or stops at a fault in the state it had
    reached. *)
Inductive outcome (A : Type) :=
| Ok (a : A)
| Crash (f : fault) (reached : system).
Arguments Ok {A} a.
Arguments Crash {A} f reached.

Definition M (A : Type) : Type := system -> outcome (A * system).

Definition ret {A} (a : A) : M A := fun s => Ok (a, s).

Definition bind {A B} (m : M A) (k : A -> M B) : M B :=
  fun s => match m s with
           | Ok (a, s') => k a s'
           | Crash f s' => Crash f s'
           end.

Definition crash {A} (f : fault) : M A := fun s => Crash f s.

Notation "'do' x <- m ; k" := (bind m (fun x => k))
  (at level 10, x name, m at level 100, k at level 200).

Definition on_bus {A} (f : i2c_bus -> A * i2c_bus) : M A :=
  fun s => let '(a, b) := f (bus s) in
           Ok (a, {| clientdata := clientdata s; bus := b;
                     classdev_script := classdev_script s |}).

(** [data->...]: a NULL [data] crashes. *)
Definition get_data : M cat3626_data :=
  fun s => match clientdata s with
           | Some d => Ok (d, s)
           | None => Crash NullPointer s
           end.

Definition put_data (d : cat3626_data) : M unit :=
  fun s => Ok (tt, {| clientdata := Some d; bus := bus s;
                      classdev_script := classdev_script s |}).

Definition in_array {A} (l : list A) (i : Z) : bool :=
  (0 <=? i) && (i <? Z.of_nat (length l)).

(** Read of [data->leds[i]]. *)
Definition led_at (i : Z) : M cat3626_led :=
  do d <- get_data;
  match leds d !! Z.to_nat i with
  | Some l => if in_array (leds d) i then ret l else crash (OutOfBounds i)
  | None => crash (OutOfBounds i)
  end.

(** Write of [data->leds[i]]. *)
Definition store_led (i : Z) (l : cat3626_led) : M unit :=
  do d <- get_data;
  if in_array (leds d) i
  then put_data {| data_client := data_client d;
                   leds := <[Z.to_nat i := l]> (leds d);
                   chip_info := chip_info d |}
  else crash (OutOfBounds i).

(** [data->leds[i].field = ...] *)
Definition modify_led (i : Z) (f : cat3626_led -> cat3626_led) : M unit :=
  do l <- led_at i;
  store_led i (f l).

(** [data->chip_info->num_leds] *)
Definition get_num_leds : M Z :=
  do d <- get_data;
  match chip_info d with
  | Some ci => ret (num_leds ci)
  | None => crash NullPointer
  end.

(** ** The LED core and the work queue, as the driver uses them *)

(** [led_classdev_register(parent, &data->leds[i].ldev)]: the next entry
    of the script decides; on success the class device exists. *)
Definition led_classdev_register (i : Z) : M Z :=
  do l <- led_at i;
  fun s =>
    let s' := {| clientdata := clientdata s; bus := bus s;
                 classdev_script := tail (classdev_script s) |} in
    match next_fault (classdev_script s) with
    | Some e => Ok (e, s')
    | None => (do _ <- store_led i (set_ldev (set_registered true (ldev l)) l);
               ret 0) s'
    end.

(** [led_classdev_unregister(&data->leds[i].ldev)] *)
Definition led_classdev_unregister (i : Z) : M unit :=
  modify_led i (fun l => set_ldev (set_registered false (ldev l)) l).

(** [INIT_WORK(&data->leds[i].work, cat3626_led_work)] *)
Definition INIT_WORK (i : Z) (f : work_fn) : M unit :=
  modify_led i (set_work {| work_func := Some f; work_pending := false |}).

(** [schedule_work(&data->leds[i].work)]: queues the item unless it is
    queued already. *)
Definition schedule_work (i : Z) : M unit :=
  modify_led i (fun l => set_work (set_pending true (work l)) l).

(** [cancel_work_sync(&data->leds[i].work)]: on return the item is
    neither queued nor running. *)
Definition cancel_work_sync (i : Z) : M unit :=
  modify_led i (fun l => set_work (set_pending false (work l)) l).

(** ** The driver *)

(** [cat3626_brightness_set(led_cdev, value)]; [ldev_to_led(led_cdev)] is
    [data->leds[i]] for the class device of LED [i].  [value] is an
    [enum led_brightness], which has no negative value. *)
Definition cat3626_brightness_set (i : Z) (value : Z) : M unit :=
  let value := Z.shiftr value 3 in
  let value := if value >? 39 then 39 else value in
  do _ <- modify_led i (set_present_reg_value value);
  schedule_work i.

(** [cat3626_led_work(work)], for the work item of LED [i]. *)
Definition cat3626_led_work (i : Z) : M unit :=
  do led <- led_at i;
  do _ <- on_bus (fun b => (tt, cat3626_setled led b));
  ret tt.

(** The work queue running the item of LED [i]: it leaves the queue,
    then its handler runs. *)
Definition run_work (i : Z) : M unit :=
  do l <- led_at i;
  if work_pending (work l)
  then do _ <- modify_led i (fun l => set_work (set_pending false (work l)) l);
       match work_func (work l) with
       | Some Fn_cat3626_led_work => cat3626_led_work i
       | None => crash NullPointer
       end
  else ret tt.

Definition cat3626_destroy_devices (n_devs : Z) : M Z :=
  let i := n_devs in
  fun s =>
    match clientdata s with
    | None => Ok (- EINVAL, s)
    | Some _ =>
        (do _ <- led_classdev_unregister i;
         do _ <- cancel_work_sync i;
         ret 0) s
    end.

(** First loop of [cat3626_configure]: the partner fields. *)
Fixpoint configure_partners (fuel : nat) (i : Z) : M unit :=
  do n <- get_num_leds;
  if i <? n then
    match fuel with
    | O => crash OutOfFuel
    | S fuel =>
        do _ <- modify_led i (set_partner (Some (i + 1)));
        do _ <- modify_led (i + 1) (set_partner (Some i));
        do _ <- modify_led i (set_i2c_reg (to_u8 (Z.shiftr i 1)));
        do _ <- modify_led (i + 1) (set_i2c_reg (to_u8 (Z.shiftr i 1)));
        configure_partners fuel (i + 2)
    end
  else ret tt.

(** [pdata->leds[i]] *)
Definition pdata_led_at (pdata : cat3626_platform_data) (i : Z) : M cat3626_led :=
  match pdata_leds pdata !! Z.to_nat i with
  | Some l => if in_array (pdata_leds pdata) i then ret l else crash (OutOfBounds i)
  | None => crash (OutOfBounds i)
  end.

(** The fields the second loop gives [led->ldev]. *)
Definition init_ldev (nm : string) (d : led_classdev) : led_classdev :=
  {| ldev_name := nm;
     brightness := LED_OFF;
     max_brightness := Z.shiftl 39 3;
     brightness_set := Some Fn_cat3626_brightness_set;
     registered := registered d |}.

(** Second loop of [cat3626_configure], with the [exit:] label it jumps
    to: the result is the function's return value. *)
Fixpoint configure_leds (fuel : nat) (cl : Z)
    (pdata : cat3626_platform_data) (i : Z) : M Z :=
  do n <- get_num_leds;
  if i <? n then
    match fuel with
    | O => crash OutOfFuel
    | S fuel =>
        do pled <- pdata_led_at pdata i;
        do _ <- modify_led i (set_client (Some cl));
        do _ <- modify_led i (set_id (to_u8 i));
        do _ <- modify_led i (set_name (name pled));
        do _ <- modify_led i (fun l => set_ldev (init_ldev (name l) (ldev l)) l);
        do _ <- INIT_WORK i Fn_cat3626_led_work;
        do err <- led_classdev_register i;
        if err <? 0 then
          do _ <- cat3626_destroy_devices i;
          ret err
        else
          do led <- led_at i;
          do _ <- on_bus (fun b => (tt, cat3626_setled led b));
          configure_leds fuel cl pdata (i + 1)
    end
  else ret 0.

Definition cat3626_configure (cl : Z) (pdata : cat3626_platform_data) : M Z :=
  do n <- get_num_leds;
  do _ <- configure_partners (Z.to_nat n) 0;
  configure_leds (Z.to_nat n) cl pdata 0.

(** A zeroed [struct cat3626_led], as [devm_kzalloc] hands it out. *)
Definition zero_led : cat3626_led :=
  {| id := 0; i2c_reg := 0; client := None; name := EmptyString;
     ldev := {| ldev_name := EmptyString; brightness := 0; max_brightness := 0;
                brightness_set := None; registered := false |};
     work := {| work_func := None; work_pending := false |};
     maximum_reg_value := 0; present_reg_value := 0; partner := None |}.

(** [cat3626_probe(client, id)].  [pdata] is the client's platform data
    (NULL or not), [smbus_ok] the answer of [i2c_check_functionality],
    [alloc_ok] whether [devm_kzalloc] finds memory, [driver_data] the
    field of the matched [i2c_device_id]. *)
Definition cat3626_probe (cl : Z) (pdata : option cat3626_platform_data)
    (smbus_ok alloc_ok : bool) (driver_data : Z) : M Z :=
  match pdata with
  | None => ret (- EIO)
  | Some cat3626_pdata =>
      if negb smbus_ok then ret (- EIO)
      else if negb alloc_ok then ret (- ENOMEM)
      else
        match cat3626_chip_info_tbl !! Z.to_nat driver_data with
        | Some ci =>
            if in_array cat3626_chip_info_tbl driver_data then
              do _ <- put_data {| data_client := Some cl;
                             leds := replicate 6 zero_led;
                             chip_info := Some ci |};
              cat3626_configure cl cat3626_pdata
            else crash (OutOfBounds driver_data)
        | None => crash (OutOfBounds driver_data)
        end
  end.

Definition cat3626_remove : M Z :=
  do n <- get_num_leds;
  do err <- cat3626_destroy_devices n;
  if negb (err =? 0) then ret err else ret 0.

(** ** Views of the state used in the statements *)

(** [data->leds[i]], when [data] is there and [i] is in the array. *)
Definition led_of (s : system) (i : Z) : option cat3626_led :=
  match clientdata s with
  | Some d => if in_array (leds d) i then leds d !! Z.to_nat i else None
  | None => None
  end.

(** The state after the assignment [data->leds[i] = l]. *)
Definition with_led (i : Z) (l : cat3626_led) (s : system) : system :=
  {| clientdata :=
       match clientdata s with
       | Some d => Some {| data_client := data_client d;
                           leds := <[Z.to_nat i := l]> (leds d);
                           chip_info := chip_info d |}
       | None => None
       end;
     bus := bus s;
     classdev_script := classdev_script s |}.

Definition with_bus (b : i2c_bus) (s : system) : system :=
  {| clientdata := clientdata s; bus := b;
     classdev_script := classdev_script s |}.

Definition pop_script (s : system) : system :=
  {| clientdata := clientdata s; bus := bus s;
     classdev_script := tail (classdev_script s) |}.

(** [data->chip_info->num_leds], when both pointers are there. *)
Definition chip_leds (s : system) : option Z :=
  match clientdata s with
  | Some d => match chip_info d with
              | Some ci => Some (num_leds ci)
              | None => None
              end
  | None => None
  end.

(** What the second loop of [cat3626_configure] makes of LED [i] before
    it registers it. *)
Definition prepared (cl : Z) (pled : cat3626_led) (i : Z)
    (l : cat3626_led) : cat3626_led :=
  set_work {| work_func := Some Fn_cat3626_led_work; work_pending := false |}
    (set_ldev (init_ldev (name pled) (ldev l))
       (set_name (name pled) (set_id (to_u8 i) (set_client (Some cl) l)))).

Definition mark_registered (v : bool) (l : cat3626_led) : cat3626_led :=
  set_ldev (set_registered v (ldev l)) l.

(** The enable bit of channel [ch] on the chip. *)
Definition enable_bit (b : i2c_bus) (ch : Z) : bool :=
  Z.testbit (regs b ADDR_REGEN) ch.

(** ** Concrete states for the examples *)

Definition quiet_bus : i2c_bus :=
  {| regs := fun _ => 0; faults := []; trace := [] |}.

Definition unbound : system :=
  {| clientdata := None; bus := quiet_bus; classdev_script := [] |}.

Definition board_pdata : cat3626_platform_data :=
  {| pdata_leds := replicate 6 zero_led |}.

(** A channel as [cat3626_configure] lays it out, asked for [level]. *)
Definition demo_led (ch level : Z) : cat3626_led :=
  {| id := ch; i2c_reg := Z.shiftr ch 1; client := Some 102;
     name := EmptyString;
     ldev := init_ldev EmptyString (ldev zero_led);
     work := {| work_func := Some Fn_cat3626_led_work; work_pending := false |};
     maximum_reg_value := 0; present_reg_value := level;
     partner := Some (Z.lxor ch 1) |}.

(** A bus whose next transaction fails with [-EIO]. *)
Definition failing_bus : i2c_bus :=
  {| regs := fun _ => 0; faults := [- EIO]; trace := [] |}.

(** Six channels bound to a chip, all asked for [level]. *)
Definition bound_leds (level : Z) : list cat3626_led :=
  map (fun ch => demo_led ch level) [0; 1; 2; 3; 4; 5].

Definition bound_on (b : i2c_bus) (level : Z) : system :=
  {| clientdata := Some {| data_client := Some 102;
                           leds := bound_leds level;
                           chip_info := Some {| num_leds := 6 |} |};
     bus := b;
     classdev_script := [] |}.

(** The state [cat3626_probe] hands to [cat3626_configure], with the LED
    core answering by [script]. *)
Definition allocated (script : list Z) : system :=
  {| clientdata := Some {| data_client := Some 102;
                           leds := replicate 6 zero_led;
                           chip_info := Some {| num_leds := 6 |} |};
     bus := quiet_bus;
     classdev_script := script |}.

(** The state a run leaves behind ([unbound] if it crashes). *)
Definition state_after {A} (m : M A) (s : system) : system :=
  match m s with
  | Ok (_, s') => s'
  | Crash _ _ => unbound
  end.

(** A chip bound without incident. *)
Definition configured : system :=
  state_after (cat3626_configure 102 board_pdata) (allocated []).

(** The same chip with a brightness request for channel 0 queued. *)
Definition busy : system :=
  state_after (cat3626_brightness_set 0 255) configured.

(** [data->leds], empty without [data]. *)
Definition all_leds (s : system) : list cat3626_led :=
  match clientdata s with
  | Some d => leds d
  | None => []
  end.

(** The array has an LED at every index below [n]. *)
Definition present (n : Z) (s : system) : Prop :=
  forall j, 0 <= j < n -> is_Some (led_of s j).

Definition is_registered (l : cat3626_led) : bool := registered (ldev l).
Definition is_pending (l : cat3626_led) : bool := work_pending (work l).

(** An LED with its pairing fields blanked: what the partner loop of
    [cat3626_configure] does not write. *)
Definition unpaired (l : cat3626_led) : cat3626_led :=
  set_partner None (set_i2c_reg 0 l).

(** The first refusal among the next [count] answers of the LED core. *)
Fixpoint first_refusal (count : nat) (fs : list Z) : option Z :=
  match count with
  | O => None
  | S count =>
      match next_fault fs with
      | Some e => Some e
      | None => first_refusal count (tail fs)
      end
  end.

(** ** Bit-level facts *)

Lemma to_char_bits x n :
  Z.testbit (to_char x) n = (n <? 8) && Z.testbit x n.
Proof.
  unfold to_char. change 256 with (2 ^ 8).
  apply Z.testbit_mod_pow2. lia.
Qed.

Lemma to_char_byte x : 0 <= x <= 255 -> to_char x = x.
Proof. intros H. unfold to_char. apply Z.mod_small. lia. Qed.

Lemma to_u8_byte x : 0 <= x <= 255 -> to_u8 x = x.
Proof. intros H. unfold to_u8. apply Z.mod_small. lia. Qed.

Lemma to_char_range x : 0 <= to_char x <= 255.
Proof. unfold to_char. pose proof (Z.mod_pos_bound x 256). lia. Qed.

Lemma byte_bits x n : 0 <= x <= 255 -> 8 <= n -> Z.testbit x n = false.
Proof.
  intros Hx Hn. rewrite <- (to_char_byte x Hx), to_char_bits.
  destruct (n <? 8) eqn:E; [lia | reflexivity].
Qed.

Lemma bit_of_shift k n : 0 <= k -> Z.testbit (Z.shiftl 1 k) n = (k =? n).
Proof. intros Hk. rewrite Z.shiftl_1_l. now apply Z.pow2_bits_eqb. Qed.

(** Bit [n] of the byte [update_enable] computes. *)
Lemma update_enable_bits led reg n :
  0 <= id led -> 0 <= n ->
  Z.testbit (update_enable led reg) n =
    (n <? 8) &&
    (if 0 =? present_reg_value led
     then Z.testbit reg n && negb (id led =? n)
     else Z.testbit reg n || (id led =? n)).
Proof.
  intros Hid Hn. unfold update_enable.
  destruct (0 =? present_reg_value led); rewrite to_char_bits.
  - now rewrite Z.land_spec, Z.lnot_spec, bit_of_shift.
  - now rewrite Z.lor_spec, bit_of_shift.
Qed.

Lemma update_enable_range led reg : 0 <= update_enable led reg <= 255.
Proof.
  unfold update_enable.
  destruct (0 =? present_reg_value led); apply to_char_range.
Qed.

(** Running [update_enable] on its own result changes nothing. *)
Lemma update_enable_idem led reg :
  0 <= id led ->
  update_enable led (update_enable led reg) = update_enable led reg.
Proof.
  intros Hid. apply Z.bits_inj'. intros n Hn.
  rewrite (update_enable_bits led (update_enable led reg)) by assumption.
  rewrite update_enable_bits by assumption.
  destruct (0 =? present_reg_value led), (n <? 8), (Z.testbit reg n),
    (id led =? n); reflexivity.
Qed.

(** ** The bus when nothing fails *)

Lemma next_fault_healthy fs :
  Forall (fun e => 0 <= e) fs -> next_fault fs = None.
Proof.
  intros H. destruct H as [|e fs He _]; simpl; [reflexivity|].
  destruct (e <? 0) eqn:E; [lia | reflexivity].
Qed.

Lemma healthy_tail fs :
  Forall (fun e => 0 <= e) fs -> Forall (fun e => 0 <= e) (tail fs).
Proof. intros H. destruct H; simpl; [constructor | assumption]. Qed.

Lemma read_healthy c b :
  bus_healthy b ->
  i2c_smbus_read_byte_data c b =
    (regs b (to_u8 c),
     {| regs := regs b; faults := tail (faults b);
        trace := trace b ++ [BusRead (to_u8 c) (regs b (to_u8 c))] |}).
Proof.
  intros H. unfold i2c_smbus_read_byte_data.
  now rewrite (next_fault_healthy _ H).
Qed.

Lemma write_healthy c v b :
  bus_healthy b ->
  i2c_smbus_write_byte_data c v b =
    (0,
     {| regs := write_reg (to_u8 c) (to_u8 v) (regs b);
        faults := tail (faults b);
        trace := trace b ++ [BusWrite (to_u8 c) (to_u8 v) 0] |}).
Proof.
  intros H. unfold i2c_smbus_write_byte_data.
  now rewrite (next_fault_healthy _ H).
Qed.

Lemma read_stays_healthy c b :
  bus_healthy b -> bus_healthy (snd (i2c_smbus_read_byte_data c b)).
Proof. intros H. unfold bus_healthy. simpl. now apply healthy_tail. Qed.

Lemma write_stays_healthy c v b :
  bus_healthy b -> bus_healthy (snd (i2c_smbus_write_byte_data c v b)).
Proof.
  intros H. unfold bus_healthy, i2c_smbus_write_byte_data.
  destruct (next_fault (faults b)); simpl; now apply healthy_tail.
Qed.

(** ** [cat3626_setled] on a bus where nothing fails *)

Section Setled.
Variable led : cat3626_led.
Variable b : i2c_bus.
Hypothesis Hb : bus_healthy b.

Local Abbreviation reg := (to_char (regs b ADDR_REGEN)).
Local Abbreviation toset := (update_enable led (to_char (regs b ADDR_REGEN))).

Lemma setled_regs a :
  regs (cat3626_setled led b) a =
    if (0 <? present_reg_value led) && (a =? to_u8 (i2c_reg led))
    then to_u8 (present_reg_value led)
    else if (a =? ADDR_REGEN) && negb (toset =? reg)
         then toset
         else regs b a.
Proof.
  unfold cat3626_setled. rewrite (read_healthy _ _ Hb).
  change (to_u8 ADDR_REGEN) with ADDR_REGEN.
  pose proof (read_stays_healthy ADDR_REGEN b Hb) as H1.
  rewrite (read_healthy _ _ Hb) in H1. simpl in H1.
  change (to_u8 ADDR_REGEN) with ADDR_REGEN in H1.
  destruct (toset =? reg) eqn:Et; simpl negb; cbv iota.
  - rewrite andb_false_r.
    destruct (0 <? present_reg_value led); simpl andb; [|reflexivity].
    rewrite (write_healthy _ _ _ H1). simpl. unfold write_reg.
    destruct (a =? to_u8 (i2c_reg led)); reflexivity.
  - rewrite andb_true_r.
    pose proof (write_stays_healthy ADDR_REGEN toset _ H1) as H2.
    rewrite (write_healthy _ _ _ H1) in H2 |- *. simpl in H2 |- *.
    assert (Ht : to_u8 toset = toset)
      by (apply to_u8_byte, update_enable_range).
    change (to_u8 ADDR_REGEN) with ADDR_REGEN in *.
    destruct (0 <? present_reg_value led); simpl andb.
    + rewrite (write_healthy _ _ _ H2). simpl. unfold write_reg.
      rewrite Ht. destruct (a =? to_u8 (i2c_reg led)); reflexivity.
    + simpl. unfold write_reg. now rewrite Ht.
Qed.

Lemma setled_trace :
  trace (cat3626_setled led b) =
    trace b ++
    BusRead ADDR_REGEN (regs b ADDR_REGEN) ::
    (if toset =? reg then [] else [BusWrite ADDR_REGEN toset 0]) ++
    (if 0 <? present_reg_value led
     then [BusWrite (to_u8 (i2c_reg led)) (to_u8 (present_reg_value led)) 0]
     else []).
Proof.
  unfold cat3626_setled. rewrite (read_healthy _ _ Hb).
  change (to_u8 ADDR_REGEN) with ADDR_REGEN.
  pose proof (read_stays_healthy ADDR_REGEN b Hb) as H1.
  rewrite (read_healthy _ _ Hb) in H1. simpl in H1.
  change (to_u8 ADDR_REGEN) with ADDR_REGEN in H1.
  destruct (toset =? reg) eqn:Et; simpl negb; cbv iota.
  - destruct (0 <? present_reg_value led); simpl.
    + rewrite (write_healthy _ _ _ H1). simpl.
      now rewrite <- app_assoc.
    + reflexivity.
  - pose proof (write_stays_healthy ADDR_REGEN toset _ H1) as H2.
    rewrite (write_healthy _ _ _ H1) in H2 |- *. simpl in H2 |- *.
    assert (Ht : to_u8 toset = toset)
      by (apply to_u8_byte, update_enable_range).
    change (to_u8 ADDR_REGEN) with ADDR_REGEN in *. rewrite Ht in *.
    destruct (0 <? present_reg_value led); simpl.
    + rewrite (write_healthy _ _ _ H2). simpl.
      now rewrite <- !app_assoc.
    + now rewrite <- app_assoc.
Qed.

Lemma setled_stays_healthy : bus_healthy (cat3626_setled led b).
Proof.
  unfold cat3626_setled.
  pose proof (read_stays_healthy ADDR_REGEN b Hb) as H1.
  destruct (i2c_smbus_read_byte_data ADDR_REGEN b) as [r b1].
  simpl in H1.
  set (b2 := if negb _ then _ else b1).
  assert (H2 : bus_healthy b2).
  { subst b2. destruct (negb _); [now apply write_stays_healthy | assumption]. }
  destruct (0 <? present_reg_value led);
    [now apply write_stays_healthy | assumption].
Qed.

(** The enable bits after the update, for a channel whose current
    register is one of A, B, C. *)
Lemma setled_enable_bit n :
  0 <= id led -> 0 <= i2c_reg led <= 2 -> 0 <= n < 8 ->
  enable_bit (cat3626_setled led b) n =
    if 0 =? present_reg_value led
    then enable_bit b n && negb (id led =? n)
    else enable_bit b n || (id led =? n).
Proof.
  intros Hid Hreg Hn. unfold enable_bit. rewrite setled_regs.
  rewrite (to_u8_byte (i2c_reg led)) by lia.
  replace (ADDR_REGEN =? i2c_reg led) with false
    by (symmetry; apply Z.eqb_neq; unfold ADDR_REGEN; lia).
  rewrite andb_false_r. rewrite Z.eqb_refl. simpl andb.
  assert (Hbits : Z.testbit toset n =
    if 0 =? present_reg_value led
    then Z.testbit (regs b ADDR_REGEN) n && negb (id led =? n)
    else Z.testbit (regs b ADDR_REGEN) n || (id led =? n)).
  { rewrite update_enable_bits by lia.
    rewrite to_char_bits.
    replace (n <? 8) with true by (symmetry; apply Z.ltb_lt; lia).
    reflexivity. }
  destruct (toset =? reg) eqn:Et; simpl negb; cbv iota.
  - apply Z.eqb_eq in Et. rewrite <- Hbits, Et.
    rewrite to_char_bits.
    replace (n <? 8) with true by (symmetry; apply Z.ltb_lt; lia).
    reflexivity.
  - exact Hbits.
Qed.

(** The enable register stays a byte. *)
Lemma setled_enable_range :
  0 <= i2c_reg led <= 2 ->
  0 <= regs b ADDR_REGEN <= 255 ->
  0 <= regs (cat3626_setled led b) ADDR_REGEN <= 255.
Proof.
  intros Hreg Hen. rewrite setled_regs.
  rewrite (to_u8_byte (i2c_reg led)) by lia.
  replace (ADDR_REGEN =? i2c_reg led) with false
    by (symmetry; apply Z.eqb_neq; unfold ADDR_REGEN; lia).
  rewrite andb_false_r. rewrite Z.eqb_refl. simpl andb.
  destruct (negb (toset =? reg)); [apply update_enable_range | assumption].
Qed.
End Setled.

(** The transactions of one [cat3626_setled], whatever the bus does. *)
Lemma setled_trace_any led b :
  let res := match next_fault (faults b) with
             | Some e => e
             | None => regs b ADDR_REGEN
             end in
  let reg := to_char res in
  let toset := update_enable led reg in
  exists r1 r2,
    trace (cat3626_setled led b) =
      trace b ++
      BusRead ADDR_REGEN res ::
      (if toset =? reg then [] else [BusWrite ADDR_REGEN toset r1]) ++
      (if 0 <? present_reg_value led
       then [BusWrite (to_u8 (i2c_reg led)) (to_u8 (present_reg_value led)) r2]
       else []).
Proof.
  intros res reg toset.
  assert (Ht : to_u8 toset = toset)
    by (apply to_u8_byte, update_enable_range).
  unfold cat3626_setled, i2c_smbus_read_byte_data.
  change (to_u8 ADDR_REGEN) with ADDR_REGEN. fold res. fold reg. fold toset.
  unfold i2c_smbus_write_byte_data.
  change (to_u8 ADDR_REGEN) with ADDR_REGEN. rewrite Ht.
  destruct (toset =? reg), (0 <? present_reg_value led); simpl;
    repeat match goal with
           | |- context [next_fault ?fs] => destruct (next_fault fs); simpl
           end.
  all: repeat lazymatch goal with
              | |- Z => exact 0
              | |- ex _ => eexists
              end.
  all: rewrite <- ?app_assoc; simpl; reflexivity.
Qed.

(** ** The register update: properties *)

(** C1.  On a bus where nothing fails, for a channel 0..5 with its
    current register among A, B, C and a requested level that is not
    negative, [cat3626_setled] leaves the enable register with the
    channel's bit set iff the requested level is above 0, and with every
    other bit as it was read. *)
Theorem C1_apply_enable_bit (led : cat3626_led) (b : i2c_bus) :
  0 <= id led <= 5 ->
  0 <= i2c_reg led <= 2 ->
  0 <= present_reg_value led ->
  0 <= regs b ADDR_REGEN <= 255 ->
  bus_healthy b ->
  enable_bit (cat3626_setled led b) (id led) = (0 <? present_reg_value led) /\
  forall n, n <> id led ->
    enable_bit (cat3626_setled led b) n = enable_bit b n.
Proof.
  intros Hid Hreg Hlvl Hen Hb. split.
  - rewrite setled_enable_bit by (assumption || lia).
    rewrite Z.eqb_refl.
    destruct (0 =? present_reg_value led) eqn:E.
    + apply Z.eqb_eq in E. rewrite <- E. now rewrite andb_false_r.
    + apply Z.eqb_neq in E. rewrite orb_true_r.
      symmetry. apply Z.ltb_lt. lia.
  - intros n Hn.
    destruct (Z.ltb_spec n 0) as [Hneg|Hpos].
    { unfold enable_bit. now rewrite !Z.testbit_neg_r. }
    destruct (Z.ltb_spec n 8) as [Hlow|Hhigh].
    + rewrite setled_enable_bit by (assumption || lia).
      replace (id led =? n) with false
        by (symmetry; apply Z.eqb_neq; congruence).
      destruct (0 =? present_reg_value led);
        [apply andb_true_r | apply orb_false_r].
    + unfold enable_bit. rewrite !byte_bits; try assumption; try reflexivity.
      now apply setled_enable_range.
Qed.

Lemma C1_apply_enable_bit_witness :
  enable_bit (cat3626_setled (demo_led 2 10) quiet_bus) 2 = true /\
  forall n, n <> 2 ->
    enable_bit (cat3626_setled (demo_led 2 10) quiet_bus) n =
    enable_bit quiet_bus n.
Proof.
  apply (C1_apply_enable_bit (demo_led 2 10) quiet_bus).
  - vm_compute. split; discriminate.
  - vm_compute. split; discriminate.
  - vm_compute. discriminate.
  - vm_compute. split; discriminate.
  - constructor.
Defined.

(** C7.  Two [cat3626_setled] runs in a row for the same channel, on a
    bus where nothing fails: the second run computes the enable byte it
    has read, so it makes no enable write; the only write it can make is
    the current register's, with the value the register holds already;
    no register changes. *)
Theorem C7_apply_twice (led : cat3626_led) (b : i2c_bus) :
  0 <= id led <= 5 ->
  0 <= i2c_reg led <= 2 ->
  bus_healthy b ->
  let b1 := cat3626_setled led b in
  let b2 := cat3626_setled led b1 in
  (forall a, regs b2 a = regs b1 a) /\
  update_enable led (to_char (regs b1 ADDR_REGEN)) =
    to_char (regs b1 ADDR_REGEN) /\
  trace b2 =
    trace b1 ++
    BusRead ADDR_REGEN (regs b1 ADDR_REGEN) ::
    (if 0 <? present_reg_value led
     then [BusWrite (i2c_reg led) (regs b1 (i2c_reg led)) 0]
     else []).
Proof.
  intros Hid Hreg Hb b1 b2.
  pose proof (setled_stays_healthy led b Hb) as Hb1. fold b1 in Hb1.
  assert (Hne : (ADDR_REGEN =? to_u8 (i2c_reg led)) = false).
  { rewrite to_u8_byte by lia. apply Z.eqb_neq. unfold ADDR_REGEN. lia. }
  assert (Hidem : update_enable led (to_char (regs b1 ADDR_REGEN)) =
                  to_char (regs b1 ADDR_REGEN)).
  { unfold b1. rewrite (setled_regs led b Hb ADDR_REGEN).
    rewrite Hne, andb_false_r, Z.eqb_refl. simpl andb.
    destruct (update_enable led (to_char (regs b ADDR_REGEN)) =?
              to_char (regs b ADDR_REGEN)) eqn:Et; simpl negb; cbv iota.
    - now apply Z.eqb_eq in Et.
    - rewrite (to_char_byte (update_enable _ _))
        by apply update_enable_range.
      apply update_enable_idem. lia. }
  assert (Hcur : 0 < present_reg_value led ->
                 regs b1 (to_u8 (i2c_reg led)) = to_u8 (present_reg_value led)).
  { intros Hlvl. unfold b1. rewrite (setled_regs led b Hb).
    replace (0 <? present_reg_value led) with true
      by (symmetry; now apply Z.ltb_lt).
    now rewrite Z.eqb_refl. }
  split; [|split].
  - intros a. unfold b2. rewrite (setled_regs led b1 Hb1 a).
    rewrite Hidem, Z.eqb_refl, andb_false_r.
    destruct (0 <? present_reg_value led) eqn:El; simpl andb; [|reflexivity].
    destruct (a =? to_u8 (i2c_reg led)) eqn:Ea; [|reflexivity].
    apply Z.eqb_eq in Ea. subst a. symmetry. apply Hcur. now apply Z.ltb_lt.
  - exact Hidem.
  - unfold b2. rewrite (setled_trace led b1 Hb1).
    rewrite Hidem, Z.eqb_refl. simpl app.
    destruct (0 <? present_reg_value led) eqn:El; [|reflexivity].
    rewrite <- (to_u8_byte (i2c_reg led)) at 2 3 by lia.
    rewrite Hcur by now apply Z.ltb_lt.
    now rewrite (to_u8_byte (i2c_reg led)) by lia.
Qed.

Lemma C7_apply_twice_witness :
  let b1 := cat3626_setled (demo_led 2 10) quiet_bus in
  let b2 := cat3626_setled (demo_led 2 10) b1 in
  (forall a, regs b2 a = regs b1 a) /\
  update_enable (demo_led 2 10) (to_char (regs b1 ADDR_REGEN)) =
    to_char (regs b1 ADDR_REGEN) /\
  trace b2 =
    trace b1 ++
    BusRead ADDR_REGEN (regs b1 ADDR_REGEN) ::
    (if 0 <? present_reg_value (demo_led 2 10)
     then [BusWrite (i2c_reg (demo_led 2 10))
             (regs b1 (i2c_reg (demo_led 2 10))) 0]
     else []).
Proof.
  apply (C7_apply_twice (demo_led 2 10) quiet_bus).
  - vm_compute. split; discriminate.
  - vm_compute. split; discriminate.
  - constructor.
Defined.

(** With a requested level of 0, [cat3626_setled] writes no register
    but the enable register, on any bus. *)
Lemma setled_off_writes led b :
  present_reg_value led = 0 ->
  exists ops,
    trace (cat3626_setled led b) = trace b ++ ops /\
    forall c v r, In (BusWrite c v r) ops -> c = ADDR_REGEN.
Proof.
  intros Hoff. destruct (setled_trace_any led b) as (r1 & r2 & Ht).
  rewrite Ht, Hoff. simpl (0 <? 0). cbv iota. rewrite app_nil_r.
  eexists. split; [reflexivity|].
  intros c v r Hin.
  destruct (_ =? _); simpl in Hin.
  - destruct Hin as [Hin|[]]. discriminate.
  - destruct Hin as [Hin|[Hin|[]]]; [discriminate | congruence].
Qed.

(** C6.  Channel 2k applied at level 10, then its partner 2k+1 applied
    at level 0, on a bus where nothing fails: channel 2k's enable bit is
    set, current register k holds 10, and the partner's run wrote no
    current register. *)
Theorem C6_partner_off_keeps_current (k : Z) (a p : cat3626_led) (b : i2c_bus) :
  0 <= k <= 2 ->
  id a = 2 * k -> i2c_reg a = k -> present_reg_value a = 10 ->
  id p = 2 * k + 1 -> i2c_reg p = k -> present_reg_value p = 0 ->
  bus_healthy b ->
  let b1 := cat3626_setled a b in
  let b2 := cat3626_setled p b1 in
  enable_bit b2 (2 * k) = true /\
  regs b2 k = 10 /\
  exists ops,
    trace b2 = trace b1 ++ ops /\
    forall c v r, In (BusWrite c v r) ops -> c = ADDR_REGEN.
Proof.
  intros Hk Hida Hrega Hlvla Hidp Hregp Hlvlp Hb b1 b2.
  pose proof (setled_stays_healthy a b Hb) as Hb1. fold b1 in Hb1.
  split; [|split].
  - unfold b2. rewrite (setled_enable_bit p b1 Hb1) by lia.
    rewrite Hlvlp, Hidp. simpl (0 =? 0). cbv iota.
    replace (2 * k + 1 =? 2 * k) with false
      by (symmetry; apply Z.eqb_neq; lia).
    rewrite andb_true_r.
    unfold b1. rewrite (setled_enable_bit a b Hb) by lia.
    rewrite Hlvla, Hida, Z.eqb_refl. simpl (0 =? 10). cbv iota.
    apply orb_true_r.
  - unfold b2. rewrite (setled_regs p b1 Hb1 k).
    rewrite Hlvlp. simpl (0 <? 0). simpl andb.
    replace (k =? ADDR_REGEN) with false
      by (symmetry; apply Z.eqb_neq; unfold ADDR_REGEN; lia).
    simpl andb. cbv iota.
    unfold b1. rewrite (setled_regs a b Hb k).
    rewrite Hlvla, Hrega, (to_u8_byte k) by lia.
    now rewrite Z.eqb_refl.
  - apply setled_off_writes. assumption.
Qed.

Lemma C6_partner_off_keeps_current_witness :
  let b1 := cat3626_setled (demo_led 2 10) quiet_bus in
  let b2 := cat3626_setled (demo_led 3 0) b1 in
  enable_bit b2 (2 * 1) = true /\
  regs b2 1 = 10 /\
  exists ops,
    trace b2 = trace b1 ++ ops /\
    forall c v r, In (BusWrite c v r) ops -> c = ADDR_REGEN.
Proof.
  apply (C6_partner_off_keeps_current 1 (demo_led 2 10) (demo_led 3 0)
           quiet_bus).
  - lia.
  - reflexivity.
  - reflexivity.
  - reflexivity.
  - reflexivity.
  - reflexivity.
  - reflexivity.
  - constructor.
Defined.

(** ** The LED array in the state *)

Lemma in_array_range {A} (l : list A) i :
  in_array l i = true <-> 0 <= i < Z.of_nat (length l).
Proof. unfold in_array. rewrite andb_true_iff, Z.leb_le, Z.ltb_lt. tauto. Qed.

Lemma led_of_range s i l : led_of s i = Some l -> 0 <= i.
Proof.
  unfold led_of. destruct (clientdata s) as [d|]; [|discriminate].
  destruct (in_array (leds d) i) eqn:E; [|discriminate].
  apply in_array_range in E. lia.
Qed.

Lemma led_at_ok s i l : led_of s i = Some l -> led_at i s = Ok (l, s).
Proof.
  unfold led_of, led_at, bind, get_data.
  destruct (clientdata s) as [d|]; [|discriminate].
  destruct (in_array (leds d) i) eqn:E; [|discriminate].
  intros ->. reflexivity.
Qed.

Lemma led_at_crash s i :
  clientdata s <> None -> led_of s i = None ->
  led_at i s = Crash (OutOfBounds i) s.
Proof.
  unfold led_of, led_at, bind, get_data.
  destruct (clientdata s) as [d|]; [|congruence]. intros _.
  destruct (in_array (leds d) i) eqn:E.
  - intros ->. reflexivity.
  - intros _. destruct (leds d !! Z.to_nat i); reflexivity.
Qed.

Lemma store_led_ok s i l0 l :
  led_of s i = Some l0 -> store_led i l s = Ok (tt, with_led i l s).
Proof.
  unfold led_of, store_led, bind, get_data, put_data, with_led.
  destruct (clientdata s) as [d|]; [|discriminate].
  destruct (in_array (leds d) i) eqn:E; [|discriminate].
  reflexivity.
Qed.

Lemma modify_led_ok s i l f :
  led_of s i = Some l -> modify_led i f s = Ok (tt, with_led i (f l) s).
Proof.
  intros H. unfold modify_led, bind. rewrite (led_at_ok _ _ _ H).
  now apply store_led_ok with l.
Qed.

Lemma led_of_with_led_eq s i l0 l :
  led_of s i = Some l0 -> led_of (with_led i l s) i = Some l.
Proof.
  unfold led_of, with_led. simpl.
  destruct (clientdata s) as [d|]; [|discriminate]. simpl.
  unfold in_array. rewrite length_insert. fold (in_array (leds d) i).
  destruct (in_array (leds d) i) eqn:E; [|discriminate]. intros _.
  apply in_array_range in E.
  apply list_lookup_insert_eq. lia.
Qed.

Lemma led_of_with_led_ne s i j l :
  0 <= i -> i <> j -> led_of (with_led i l s) j = led_of s j.
Proof.
  intros Hi Hne. unfold led_of, with_led. simpl.
  destruct (clientdata s) as [d|]; [|reflexivity]. simpl.
  unfold in_array. rewrite length_insert. fold (in_array (leds d) j).
  destruct (in_array (leds d) j) eqn:E; [|reflexivity].
  apply in_array_range in E.
  apply list_lookup_insert_ne. lia.
Qed.

(** ** Brightness requests *)

Lemma brightness_set_ok s i l value :
  led_of s i = Some l ->
  let level := if Z.shiftr value 3 >? 39 then 39 else Z.shiftr value 3 in
  let l1 := set_present_reg_value level l in
  let l2 := set_work (set_pending true (work l1)) l1 in
  cat3626_brightness_set i value s =
    Ok (tt, with_led i l2 (with_led i l1 s)).
Proof.
  intros H level l1 l2. unfold cat3626_brightness_set, bind.
  fold level. rewrite (modify_led_ok _ _ _ _ H). fold l1.
  unfold schedule_work.
  now rewrite (modify_led_ok _ _ l1) by now apply led_of_with_led_eq with l.
Qed.

(** Whatever brightness the LED core passes, the level stored is in
    0..39. *)
Lemma brightness_set_level_range s i l value s' l' :
  led_of s i = Some l ->
  0 <= value ->
  cat3626_brightness_set i value s = Ok (tt, s') ->
  led_of s' i = Some l' ->
  0 <= present_reg_value l' <= 39.
Proof.
  intros Hl Hv Hrun Hl'.
  rewrite (brightness_set_ok s i l value Hl) in Hrun. injection Hrun as <-.
  erewrite led_of_with_led_eq in Hl'
    by (eapply led_of_with_led_eq; exact Hl).
  injection Hl' as <-. simpl.
  assert (0 <= Z.shiftr value 3) by now apply Z.shiftr_nonneg.
  destruct (Z.shiftr value 3 >? 39) eqn:E; [lia|].
  rewrite Z.gtb_ltb in E. apply Z.ltb_ge in E. lia.
Qed.

(** C2.  For a raw brightness in 0..255, [cat3626_brightness_set] stores
    min(raw >> 3, 39) as the channel's requested level; the level is in
    0..39 and is raw >> 3 itself, and for any input whatever the stored
    level differs from the shifted input only when the input is at
    least 320. *)
Theorem C2_brightness_set_level (s : system) (i : Z) (l : cat3626_led) (raw : Z) :
  led_of s i = Some l ->
  0 <= raw <= 255 ->
  exists s' l',
    cat3626_brightness_set i raw s = Ok (tt, s') /\
    led_of s' i = Some l' /\
    present_reg_value l' = Z.min (Z.shiftr raw 3) 39 /\
    0 <= present_reg_value l' <= 39 /\
    present_reg_value l' = Z.shiftr raw 3 /\
    forall v s2 l2,
      cat3626_brightness_set i v s = Ok (tt, s2) ->
      led_of s2 i = Some l2 ->
      present_reg_value l2 <> Z.shiftr v 3 ->
      320 <= v.
Proof.
  intros Hl Hraw.
  assert (Hsh : 0 <= Z.shiftr raw 3 <= 31).
  { rewrite Z.shiftr_div_pow2 by lia. change (2 ^ 3) with 8.
    Z.div_mod_to_equations. lia. }
  eexists. eexists. split; [apply (brightness_set_ok s i l raw Hl)|].
  split.
  { apply led_of_with_led_eq with (set_present_reg_value
      (if Z.shiftr raw 3 >? 39 then 39 else Z.shiftr raw 3) l).
    now apply led_of_with_led_eq with l. }
  simpl present_reg_value.
  replace (Z.shiftr raw 3 >? 39) with false
    by (symmetry; rewrite Z.gtb_ltb; apply Z.ltb_ge; lia).
  repeat split; try lia.
  intros v s2 l2 Hrun Hl2 Hdiff.
  rewrite (brightness_set_ok s i l v Hl) in Hrun.
  injection Hrun as <-.
  erewrite led_of_with_led_eq in Hl2
    by (eapply led_of_with_led_eq; exact Hl).
  injection Hl2 as <-. simpl in Hdiff.
  destruct (Z.shiftr v 3 >? 39) eqn:E; [|congruence].
  rewrite Z.gtb_ltb in E. apply Z.ltb_lt in E.
  destruct (Z.lt_ge_cases v 320) as [Hlt|]; [|assumption].
  exfalso.
  assert (Z.shiftr v 3 <= 39); [|lia].
  rewrite Z.shiftr_div_pow2 by lia. change (2 ^ 3) with 8.
  Z.div_mod_to_equations. lia.
Qed.

Lemma C2_brightness_set_level_witness :
  exists s' l',
    cat3626_brightness_set 4 255 (bound_on quiet_bus 0) = Ok (tt, s') /\
    led_of s' 4 = Some l' /\
    present_reg_value l' = Z.min (Z.shiftr 255 3) 39 /\
    0 <= present_reg_value l' <= 39 /\
    present_reg_value l' = Z.shiftr 255 3 /\
    forall v s2 l2,
      cat3626_brightness_set 4 v (bound_on quiet_bus 0) = Ok (tt, s2) ->
      led_of s2 4 = Some l2 ->
      present_reg_value l2 <> Z.shiftr v 3 ->
      320 <= v.
Proof.
  apply (C2_brightness_set_level (bound_on quiet_bus 0) 4 (demo_led 4 0) 255).
  - reflexivity.
  - lia.
Defined.

(** ** A failed read of the enable register *)

Lemma led_work_ok s i led :
  led_of s i = Some led ->
  cat3626_led_work i s = Ok (tt, with_bus (cat3626_setled led (bus s)) s).
Proof.
  intros H. unfold cat3626_led_work, bind. now rewrite (led_at_ok _ _ _ H).
Qed.

(** C5, as stated, fails: with the read of the enable register answered
    by [-EIO], the update of channel 2 at level 10 still writes the
    enable register (with 0xff, the low byte of the errno with bit 2
    set) and current register B. *)
Lemma C5_failed_read_still_writes :
  next_fault (faults failing_bus) = Some (- EIO) /\
  writes (trace (cat3626_setled (demo_led 2 10) failing_bus)) =
    [BusWrite ADDR_REGEN 255 0; BusWrite ADDR_REG_B 10 0].
Proof. split; reflexivity. Qed.

(** C5, amended.  When the read of the enable register fails with errno
    [e], the run goes on with the low byte of [e] as the byte read: it
    writes the enable register when setting or clearing the channel's
    bit changes that byte, and the current register when the requested
    level is above 0.  The driver's data, the requested level with it,
    is as before. *)
Theorem C5_failed_read_goes_on (s : system) (i : Z) (led : cat3626_led) (e : Z) :
  led_of s i = Some led ->
  next_fault (faults (bus s)) = Some e ->
  exists s' r1 r2,
    cat3626_led_work i s = Ok (tt, s') /\
    clientdata s' = clientdata s /\
    led_of s' i = Some led /\
    trace (bus s') =
      trace (bus s) ++
      BusRead ADDR_REGEN e ::
      (if update_enable led (to_char e) =? to_char e
       then []
       else [BusWrite ADDR_REGEN (update_enable led (to_char e)) r1]) ++
      (if 0 <? present_reg_value led
       then [BusWrite (to_u8 (i2c_reg led)) (to_u8 (present_reg_value led)) r2]
       else []).
Proof.
  intros Hled He.
  destruct (setled_trace_any led (bus s)) as (r1 & r2 & Ht).
  rewrite He in Ht.
  exists (with_bus (cat3626_setled led (bus s)) s), r1, r2.
  split; [now apply led_work_ok|].
  split; [reflexivity|].
  split; [exact Hled|].
  exact Ht.
Qed.

Lemma C5_failed_read_goes_on_witness :
  exists s' r1 r2,
    cat3626_led_work 2 (bound_on failing_bus 10) = Ok (tt, s') /\
    clientdata s' = clientdata (bound_on failing_bus 10) /\
    led_of s' 2 = Some (demo_led 2 10) /\
    trace (bus s') =
      trace (bus (bound_on failing_bus 10)) ++
      BusRead ADDR_REGEN (- EIO) ::
      (if update_enable (demo_led 2 10) (to_char (- EIO)) =? to_char (- EIO)
       then []
       else [BusWrite ADDR_REGEN
               (update_enable (demo_led 2 10) (to_char (- EIO))) r1]) ++
      (if 0 <? present_reg_value (demo_led 2 10)
       then [BusWrite (to_u8 (i2c_reg (demo_led 2 10)))
               (to_u8 (present_reg_value (demo_led 2 10))) r2]
       else []).
Proof.
  apply (C5_failed_read_goes_on (bound_on failing_bus 10) 2 (demo_led 2 10)
           (- EIO)).
  - reflexivity.
  - reflexivity.
Defined.

(** ** Walking the LED array *)

Lemma led_of_with_led s i l j :
  0 <= i ->
  led_of (with_led i l s) j =
    if i =? j
    then match led_of s i with Some _ => Some l | None => None end
    else led_of s j.
Proof.
  intros Hi. destruct (Z.eqb_spec i j) as [<-|Hne].
  - destruct (led_of s i) eqn:E; [now apply led_of_with_led_eq with c|].
    revert E. unfold led_of, with_led. simpl.
    destruct (clientdata s) as [d|]; [|reflexivity]. simpl.
    unfold in_array. rewrite length_insert. fold (in_array (leds d) i).
    destruct (in_array (leds d) i) eqn:Ea; [|reflexivity].
    apply in_array_range in Ea. intros E.
    apply lookup_ge_None in E. lia.
  - now apply led_of_with_led_ne.
Qed.

Lemma chip_leds_with_led s i l : chip_leds (with_led i l s) = chip_leds s.
Proof.
  unfold chip_leds, with_led. simpl. now destruct (clientdata s).
Qed.

Lemma get_num_leds_ok s n : chip_leds s = Some n -> get_num_leds s = Ok (n, s).
Proof.
  unfold chip_leds, get_num_leds, bind, get_data.
  destruct (clientdata s) as [d|]; [|discriminate].
  destruct (chip_info d); [|discriminate]. now intros [= ->].
Qed.

Lemma modify_led_inv s i f u s' :
  modify_led i f s = Ok (u, s') ->
  exists l, led_of s i = Some l /\ s' = with_led i (f l) s.
Proof.
  destruct (led_of s i) as [l|] eqn:E.
  - rewrite (modify_led_ok _ _ _ _ E). intros [= <-]. now exists l.
  - unfold modify_led, bind.
    destruct (clientdata s) as [d|] eqn:Ed.
    + rewrite led_at_crash by congruence. discriminate.
    + unfold led_at, bind, get_data. rewrite Ed. discriminate.
Qed.

Lemma bind_inv {A B} (m : M A) (k : A -> M B) s r :
  bind m k s = Ok r -> exists a s1, m s = Ok (a, s1) /\ k a s1 = Ok r.
Proof.
  unfold bind. destruct (m s) as [[a s1]|]; [|discriminate].
  intros H. now exists a, s1.
Qed.

(** Case analysis on the index comparisons left by [led_of_with_led]. *)
Ltac eqb_cases :=
  repeat match goal with
         | |- context [(?x =? ?y)] =>
             destruct (Z.eqb_spec x y); try lia
         | H : context [(?x =? ?y)] |- _ =>
             destruct (Z.eqb_spec x y); try lia
         end.

Ltac led_walk H := rewrite !led_of_with_led in H by lia; eqb_cases.

(** ** [cat3626_configure]: the partner loop *)

(** One turn of the loop. *)
Lemma partners_turn s i s1 s2 s3 s4 :
  0 <= i ->
  modify_led i (set_partner (Some (i + 1))) s = Ok (tt, s1) ->
  modify_led (i + 1) (set_partner (Some i)) s1 = Ok (tt, s2) ->
  modify_led i (set_i2c_reg (to_u8 (Z.shiftr i 1))) s2 = Ok (tt, s3) ->
  modify_led (i + 1) (set_i2c_reg (to_u8 (Z.shiftr i 1))) s3 = Ok (tt, s4) ->
  chip_leds s4 = chip_leds s /\
  bus s4 = bus s /\
  classdev_script s4 = classdev_script s /\
  (exists a b,
     led_of s4 i = Some a /\ led_of s4 (i + 1) = Some b /\
     partner a = Some (i + 1) /\ partner b = Some i /\
     i2c_reg a = to_u8 (Z.shiftr i 1) /\
     i2c_reg b = to_u8 (Z.shiftr i 1)) /\
  (forall j, j < i -> led_of s4 j = led_of s j).
Proof.
  intros Hi H1 H2 H3 H4.
  apply modify_led_inv in H1 as (a & Ha & ->).
  apply modify_led_inv in H2 as (b & Hb & ->).
  apply modify_led_inv in H3 as (a' & Ha' & ->).
  apply modify_led_inv in H4 as (b' & Hb' & ->).
  led_walk Hb. led_walk Ha'. rewrite Ha in Ha'. injection Ha' as <-.
  led_walk Hb'. rewrite Hb in Hb'. injection Hb' as <-.
  split; [now rewrite !chip_leds_with_led|].
  split; [reflexivity|]. split; [reflexivity|]. split.
  - eexists. eexists.
    rewrite !led_of_with_led by lia. eqb_cases. rewrite Ha, Hb.
    repeat split; reflexivity.
  - intros j Hj. rewrite !led_of_with_led by lia. now eqb_cases.
Qed.

Lemma configure_partners_eq fuel i :
  configure_partners fuel i =
    (do n <- get_num_leds;
     if i <? n then
       match fuel with
       | O => crash OutOfFuel
       | S fuel =>
           do _ <- modify_led i (set_partner (Some (i + 1)));
           do _ <- modify_led (i + 1) (set_partner (Some i));
           do _ <- modify_led i (set_i2c_reg (to_u8 (Z.shiftr i 1)));
           do _ <- modify_led (i + 1) (set_i2c_reg (to_u8 (Z.shiftr i 1)));
           configure_partners fuel (i + 2)
       end
     else ret tt).
Proof. destruct fuel; reflexivity. Qed.

(** A finished partner loop has paired every two channels from [i] on
    and has left the channels below [i], the bus and the LED core
    alone. *)
Lemma configure_partners_success n fuel :
  forall i s s',
    chip_leds s = Some n -> 0 <= i ->
    configure_partners fuel i s = Ok (tt, s') ->
    chip_leds s' = Some n /\
    bus s' = bus s /\
    classdev_script s' = classdev_script s /\
    (forall j, j < i -> led_of s' j = led_of s j) /\
    (forall m, 0 <= m -> i + 2 * m < n ->
       exists a b,
         led_of s' (i + 2 * m) = Some a /\
         led_of s' (i + 2 * m + 1) = Some b /\
         partner a = Some (i + 2 * m + 1) /\
         partner b = Some (i + 2 * m) /\
         i2c_reg a = to_u8 (Z.shiftr (i + 2 * m) 1) /\
         i2c_reg b = to_u8 (Z.shiftr (i + 2 * m) 1)).
Proof.
  induction fuel as [|fuel IH]; intros i s s' Hn Hi H;
    rewrite configure_partners_eq in H;
    apply bind_inv in H as (n' & s0 & Hg & H);
    rewrite (get_num_leds_ok _ _ Hn) in Hg; injection Hg as <- <-;
    destruct (Z.ltb_spec i n) as [Hlt|Hge];
    try discriminate;
    try (injection H as <-;
         repeat split; try assumption; try reflexivity; intros; lia).
  apply bind_inv in H as ([] & s1 & H1 & H).
  apply bind_inv in H as ([] & s2 & H2 & H).
  apply bind_inv in H as ([] & s3 & H3 & H).
  apply bind_inv in H as ([] & s4 & H4 & H).
  destruct (partners_turn _ _ _ _ _ _ Hi H1 H2 H3 H4)
    as (Hc & Hbus & Hscr & (a & b & Ha & Hb & Hpa & Hpb & Hra & Hrb) & Hlow).
  destruct (IH (i + 2) s4 s' ) as (Hc' & Hbus' & Hscr' & Hlow' & Hup');
    [congruence | lia | assumption |].
  split; [assumption|]. split; [congruence|]. split; [congruence|]. split.
  - intros j Hj. rewrite Hlow' by lia. now apply Hlow.
  - intros m Hm Hbound.
    destruct (Z.eq_dec m 0) as [->|Hm0].
    + replace (i + 2 * 0) with i by lia.
      exists a, b. rewrite !Hlow' by lia. now repeat split.
    + destruct (Hup' (m - 1)) as (a' & b' & H'); [lia | lia |].
      replace (i + 2 + 2 * (m - 1)) with (i + 2 * m) in H' by lia.
      now exists a', b'.
Qed.

(** ** [cat3626_configure]: the registration loop *)

Lemma on_bus_ok (f : i2c_bus -> i2c_bus) s :
  on_bus (fun b => (tt, f b)) s = Ok (tt, with_bus (f (bus s)) s).
Proof. reflexivity. Qed.

Lemma chip_leds_with_bus b s : chip_leds (with_bus b s) = chip_leds s.
Proof. reflexivity. Qed.

Lemma chip_leds_pop_script s : chip_leds (pop_script s) = chip_leds s.
Proof. reflexivity. Qed.

Lemma led_of_with_bus b s j : led_of (with_bus b s) j = led_of s j.
Proof. reflexivity. Qed.

Lemma led_of_pop_script s j : led_of (pop_script s) j = led_of s j.
Proof. reflexivity. Qed.

Lemma led_at_inv s i l s1 :
  led_at i s = Ok (l, s1) -> led_of s i = Some l /\ s1 = s.
Proof.
  destruct (led_of s i) as [l0|] eqn:E.
  - rewrite (led_at_ok _ _ _ E). now intros [= <- <-].
  - destruct (clientdata s) as [d|] eqn:Ed.
    + rewrite led_at_crash by congruence. discriminate.
    + unfold led_at, bind, get_data. rewrite Ed. discriminate.
Qed.

Lemma next_fault_negative fs e : next_fault fs = Some e -> e < 0.
Proof.
  destruct fs as [|x fs]; simpl; [discriminate|].
  destruct (Z.ltb_spec x 0); [|discriminate]. now intros [= <-].
Qed.

(** What [led_classdev_register] can have done when it returns. *)
Lemma led_classdev_register_inv s i err s' :
  led_classdev_register i s = Ok (err, s') ->
  (err < 0 /\ s' = pop_script s) \/
  (err = 0 /\
   exists l, led_of s i = Some l /\
             s' = with_led i (mark_registered true l) (pop_script s)).
Proof.
  unfold led_classdev_register. intros H.
  apply bind_inv in H as (l & s1 & Hl & H).
  apply led_at_inv in Hl as (Hl & ->).
  fold (pop_script s) in H.
  destruct (next_fault (classdev_script s)) as [e|] eqn:E.
  - injection H as <- <-. left. split; [|reflexivity].
    now apply next_fault_negative with (classdev_script s).
  - right. unfold bind in H.
    rewrite (store_led_ok (pop_script s) i l _ Hl) in H.
    injection H as <- <-. split; [reflexivity|]. now exists l.
Qed.

(** The five assignments that precede the registration of LED [i]. *)
Lemma prepare_inv cl pled s i s1 s2 s3 s4 s5 :
  0 <= i ->
  modify_led i (set_client (Some cl)) s = Ok (tt, s1) ->
  modify_led i (set_id (to_u8 i)) s1 = Ok (tt, s2) ->
  modify_led i (set_name (name pled)) s2 = Ok (tt, s3) ->
  modify_led i (fun l => set_ldev (init_ldev (name l) (ldev l)) l) s3
    = Ok (tt, s4) ->
  INIT_WORK i Fn_cat3626_led_work s4 = Ok (tt, s5) ->
  chip_leds s5 = chip_leds s /\
  (exists l, led_of s i = Some l /\
             led_of s5 i = Some (prepared cl pled i l)) /\
  (forall j, j <> i -> led_of s5 j = led_of s j).
Proof.
  intros Hi H1 H2 H3 H4 H5. unfold INIT_WORK in H5.
  apply modify_led_inv in H1 as (l & Hl & ->).
  apply modify_led_inv in H2 as (l2 & Hl2 & ->).
  apply modify_led_inv in H3 as (l3 & Hl3 & ->).
  apply modify_led_inv in H4 as (l4 & Hl4 & ->).
  apply modify_led_inv in H5 as (l5 & Hl5 & ->).
  led_walk Hl2. rewrite Hl in Hl2. injection Hl2 as <-.
  led_walk Hl3. rewrite Hl in Hl3. injection Hl3 as <-.
  led_walk Hl4. rewrite Hl in Hl4. injection Hl4 as <-.
  led_walk Hl5. rewrite Hl in Hl5. injection Hl5 as <-.
  split; [now rewrite !chip_leds_with_led|]. split.
  - exists l. split; [assumption|].
    rewrite !led_of_with_led by lia. eqb_cases. now rewrite Hl.
  - intros j Hj. rewrite !led_of_with_led by lia. now eqb_cases.
Qed.

Lemma configure_leds_eq fuel cl pdata i :
  configure_leds fuel cl pdata i =
    (do n <- get_num_leds;
     if i <? n then
       match fuel with
       | O => crash OutOfFuel
       | S fuel =>
           do pled <- pdata_led_at pdata i;
           do _ <- modify_led i (set_client (Some cl));
           do _ <- modify_led i (set_id (to_u8 i));
           do _ <- modify_led i (set_name (name pled));
           do _ <- modify_led i
                     (fun l => set_ldev (init_ldev (name l) (ldev l)) l);
           do _ <- INIT_WORK i Fn_cat3626_led_work;
           do err <- led_classdev_register i;
           if err <? 0 then
             do _ <- cat3626_destroy_devices i;
             ret err
           else
             do led <- led_at i;
             do _ <- on_bus (fun b => (tt, cat3626_setled led b));
             configure_leds fuel cl pdata (i + 1)
       end
     else ret 0).
Proof. destruct fuel; reflexivity. Qed.

(** A registration loop that returns 0 has prepared and registered every
    channel from [i] on, and has left the channels below [i] alone. *)
Lemma configure_leds_success n cl pdata fuel :
  forall i s s',
    chip_leds s = Some n -> 0 <= i ->
    configure_leds fuel cl pdata i s = Ok (0, s') ->
    (forall j, j < i -> led_of s' j = led_of s j) /\
    (forall j, i <= j < n ->
       exists l pled,
         led_of s j = Some l /\
         led_of s' j = Some (mark_registered true (prepared cl pled j l))).
Proof.
  induction fuel as [|fuel IH]; intros i s s' Hn Hi H;
    rewrite configure_leds_eq in H;
    apply bind_inv in H as (n' & s0 & Hg & H);
    rewrite (get_num_leds_ok _ _ Hn) in Hg; injection Hg as <- <-;
    destruct (Z.ltb_spec i n) as [Hlt|Hge];
    try discriminate;
    try (injection H as <-; split; [reflexivity | intros; lia]).
  apply bind_inv in H as (pled & s0 & Hp & H).
  assert (s0 = s) as ->.
  { unfold pdata_led_at in Hp.
    destruct (pdata_leds pdata !! Z.to_nat i); [|discriminate].
    destruct (in_array _ _); [|discriminate]. now injection Hp. }
  apply bind_inv in H as ([] & s1 & H1 & H).
  apply bind_inv in H as ([] & s2 & H2 & H).
  apply bind_inv in H as ([] & s3 & H3 & H).
  apply bind_inv in H as ([] & s4 & H4 & H).
  apply bind_inv in H as ([] & s5 & H5 & H).
  apply bind_inv in H as (err & s6 & H6 & H).
  destruct (prepare_inv _ _ _ _ _ _ _ _ _ Hi H1 H2 H3 H4 H5)
    as (Hc & (l & Hl & Hl5) & Hframe).
  apply led_classdev_register_inv in H6
    as [(Herr & ->)|(-> & l5 & Hl5' & ->)].
  { replace (err <? 0) with true in H by (symmetry; now apply Z.ltb_lt).
    apply bind_inv in H as (r & s7 & _ & H). injection H as -> _. lia. }
  rewrite Hl5 in Hl5'. injection Hl5' as <-.
  change (0 <? 0) with false in H. cbv iota in H.
  apply bind_inv in H as (led & s7 & H7 & H).
  apply led_at_inv in H7 as (H7 & ->).
  apply bind_inv in H as ([] & s8 & H8 & H).
  rewrite on_bus_ok in H8. injection H8 as <-.
  match type of H with
  | configure_leds _ _ _ _ ?st = _ =>
      destruct (IH (i + 1) st s') as (Hlow & Hup);
        [ | lia | exact H | set (s8 := st) in * ]
  end.
  { rewrite chip_leds_with_bus, chip_leds_with_led, chip_leds_pop_script.
    congruence. }
  assert (Hs8 : forall j,
    led_of s8 j =
    if i =? j then Some (mark_registered true (prepared cl pled i l))
    else led_of s j).
  { intros j. unfold s8.
    rewrite led_of_with_bus, led_of_with_led, !led_of_pop_script by lia.
    destruct (Z.eqb_spec i j) as [<-|Hne]; [now rewrite Hl5|].
    apply Hframe. congruence. }
  split.
  - intros j Hj. rewrite Hlow by lia. rewrite Hs8.
    replace (i =? j) with false by (symmetry; apply Z.eqb_neq; lia).
    reflexivity.
  - intros j Hj. destruct (Z.eq_dec j i) as [->|Hne].
    + exists l, pled. split; [assumption|].
      rewrite Hlow by lia. rewrite Hs8. now rewrite Z.eqb_refl.
    + destruct (Hup j) as (l' & pled' & Hl' & Hs'); [lia|].
      rewrite Hs8 in Hl'.
      replace (i =? j) with false in Hl' by (symmetry; apply Z.eqb_neq; lia).
      now exists l', pled'.
Qed.

(** ** Tear-down *)

(** [cat3626_destroy_devices], given an index inside the array, handles
    the LED at that index and no other. *)
Lemma destroy_devices_one s i l :
  led_of s i = Some l ->
  exists s',
    cat3626_destroy_devices i s = Ok (0, s') /\
    option_map is_registered (led_of s' i) = Some false /\
    option_map is_pending (led_of s' i) = Some false /\
    forall j, j <> i -> led_of s' j = led_of s j.
Proof.
  intros Hl. pose proof (led_of_range _ _ _ Hl) as Hi.
  unfold cat3626_destroy_devices.
  destruct (clientdata s) as [d|] eqn:Ed.
  2:{ unfold led_of in Hl. now rewrite Ed in Hl. }
  unfold bind, led_classdev_unregister, cancel_work_sync.
  rewrite (modify_led_ok _ _ _ _ Hl).
  erewrite modify_led_ok by (eapply led_of_with_led_eq; exact Hl).
  eexists. split; [reflexivity|].
  rewrite !led_of_with_led by lia. rewrite Z.eqb_refl, Hl.
  split; [reflexivity|]. split; [reflexivity|].
  intros j Hj. rewrite !led_of_with_led by lia. now eqb_cases.
Qed.

(** Called with the length of the array, as [cat3626_remove] does, it
    stops at the first access, with nothing done. *)
Lemma remove_out_of_bounds s d :
  clientdata s = Some d ->
  chip_leds s = Some (Z.of_nat (length (leds d))) ->
  cat3626_remove s = Crash (OutOfBounds (Z.of_nat (length (leds d)))) s.
Proof.
  intros Hd Hn. unfold cat3626_remove, bind.
  rewrite (get_num_leds_ok _ _ Hn).
  unfold cat3626_destroy_devices. rewrite Hd.
  unfold bind, led_classdev_unregister, modify_led, bind.
  rewrite led_at_crash; [reflexivity | congruence |].
  unfold led_of. rewrite Hd.
  destruct (in_array (leds d) (Z.of_nat (length (leds d)))) eqn:E;
    [|reflexivity].
  apply in_array_range in E. lia.
Qed.

(** ** [cat3626_configure] returns *)

Lemma present_with_led n s i l : 0 <= i -> present n s -> present n (with_led i l s).
Proof.
  intros Hi Hp j Hj. rewrite led_of_with_led by lia.
  destruct (Z.eqb_spec i j) as [<-|_]; [|now apply Hp].
  destruct (Hp i Hj) as [l0 ->]. now exists l.
Qed.

Lemma modify_led_returns n s i f :
  present n s -> 0 <= i < n ->
  exists s',
    modify_led i f s = Ok (tt, s') /\
    present n s' /\ chip_leds s' = chip_leds s.
Proof.
  intros Hp Hi. destruct (Hp i Hi) as [l Hl].
  exists (with_led i (f l) s). split; [now apply modify_led_ok|].
  split; [apply present_with_led; [lia | assumption]|].
  apply chip_leds_with_led.
Qed.

(** Runs the next [modify_led] of the goal. *)
Ltac run_modify n Hp Hc :=
  match goal with
  | |- context [bind (modify_led ?i ?f) _ ?s] =>
      let s1 := fresh "s" in
      let E := fresh "E" in
      let Hp1 := fresh "Hp" in
      let Hc1 := fresh "Hc" in
      destruct (modify_led_returns n s i f Hp ltac:(lia))
        as (s1 & E & Hp1 & Hc1);
      unfold bind at 1; rewrite E;
      rewrite Hc in Hc1; clear E;
      try clear Hp; try clear Hc;
      rename Hp1 into Hp; rename Hc1 into Hc
  end.

Lemma configure_partners_returns n fuel :
  forall i s,
    chip_leds s = Some n -> present n s ->
    Z.even n = true -> Z.even i = true -> 0 <= i ->
    (Z.to_nat (n - i) <= fuel)%nat ->
    exists s',
      configure_partners fuel i s = Ok (tt, s') /\
      present n s' /\ chip_leds s' = Some n.
Proof.
  induction fuel as [|fuel IH]; intros i s Hc Hp Hen Hei Hi Hfuel;
    rewrite configure_partners_eq; unfold bind at 1;
    rewrite (get_num_leds_ok _ _ Hc);
    destruct (Z.ltb_spec i n) as [Hlt|Hge];
    try lia;
    try (exists s; now repeat split).
  destruct (proj1 (Z.even_spec n) Hen) as [kn Hkn].
  destruct (proj1 (Z.even_spec i) Hei) as [ki Hki].
  run_modify n Hp Hc. run_modify n Hp Hc.
  run_modify n Hp Hc.
  match goal with
  | |- context [bind (modify_led ?j ?f) _ ?s0] =>
      destruct (modify_led_returns n s0 j f Hp ltac:(lia))
        as (s4 & E4 & Hp4 & Hc4);
      unfold bind at 1; rewrite E4
  end.
  apply IH; try assumption; try congruence; try lia.
  rewrite Z.even_spec. exists (ki + 1). lia.
Qed.

Lemma pdata_led_at_returns pdata i s :
  0 <= i < Z.of_nat (length (pdata_leds pdata)) ->
  exists pled, pdata_led_at pdata i s = Ok (pled, s).
Proof.
  intros Hi. unfold pdata_led_at.
  destruct (lookup_lt_is_Some_2 (pdata_leds pdata) (Z.to_nat i)) as [pl ->];
    [lia|].
  replace (in_array (pdata_leds pdata) i) with true
    by (symmetry; now apply in_array_range).
  now exists pl.
Qed.

Lemma configure_leds_returns n cl pdata fuel :
  forall i s,
    chip_leds s = Some n -> present n s ->
    n <= Z.of_nat (length (pdata_leds pdata)) -> 0 <= i ->
    (Z.to_nat (n - i) <= fuel)%nat ->
    exists r s', configure_leds fuel cl pdata i s = Ok (r, s') /\ r <= 0.
Proof.
  induction fuel as [|fuel IH]; intros i s Hc Hp Hpd Hi Hfuel;
    rewrite configure_leds_eq; unfold bind at 1;
    rewrite (get_num_leds_ok _ _ Hc);
    destruct (Z.ltb_spec i n) as [Hlt|Hge];
    try lia;
    try (exists 0, s; split; [reflexivity | lia]).
  destruct (pdata_led_at_returns pdata i s) as (pled & Epl); [lia|].
  unfold bind at 1. rewrite Epl.
  run_modify n Hp Hc. run_modify n Hp Hc. run_modify n Hp Hc.
  run_modify n Hp Hc. unfold INIT_WORK. run_modify n Hp Hc.
  unfold bind at 1.
  match goal with
  | |- context [led_classdev_register i ?s0] =>
      destruct (Hp i ltac:(lia)) as [l Hl];
      destruct (led_classdev_register i s0) as [[err s6]|] eqn:E6
  end.
  2:{ unfold led_classdev_register, bind in E6.
      rewrite (led_at_ok _ _ _ Hl) in E6.
      destruct (next_fault _); [discriminate|].
      erewrite store_led_ok in E6 by exact Hl. discriminate. }
  apply led_classdev_register_inv in E6
    as [(Herr & ->)|(-> & l' & Hl' & ->)].
  - replace (err <? 0) with true by (symmetry; now apply Z.ltb_lt).
    match goal with
    | |- context [cat3626_destroy_devices i] =>
        match goal with
        | |- context [pop_script ?s0] =>
            destruct (destroy_devices_one (pop_script s0) i l Hl)
              as (s7 & E7 & _)
        end
    end.
    unfold bind. rewrite E7.
    exists err, s7. split; [reflexivity | lia].
  - change (0 <? 0) with false. cbv iota.
    unfold bind at 1. erewrite led_at_ok
      by (eapply led_of_with_led_eq; exact Hl).
    unfold bind at 1. rewrite on_bus_ok.
    apply IH; try assumption; try lia.
    + now rewrite chip_leds_with_bus, chip_leds_with_led, chip_leds_pop_script.
    + intros j Hj. rewrite led_of_with_bus.
      apply (present_with_led n (pop_script s4)); [lia | | assumption].
      intros j' Hj'. rewrite led_of_pop_script. now apply Hp.
Qed.

(** On a chip with six channels and six platform entries,
    [cat3626_configure] returns; what it returns is 0 or an errno. *)
Lemma configure_returns cl pdata s :
  chip_leds s = Some 6 -> present 6 s ->
  6 <= Z.of_nat (length (pdata_leds pdata)) ->
  exists r s', cat3626_configure cl pdata s = Ok (r, s') /\ r <= 0.
Proof.
  intros Hc Hp Hpd. unfold cat3626_configure.
  unfold bind at 1. rewrite (get_num_leds_ok _ _ Hc).
  destruct (configure_partners_returns 6 (Z.to_nat 6) 0 s)
    as (s1 & E1 & Hp1 & Hc1); try assumption; try reflexivity; try lia.
  unfold bind at 1. rewrite E1.
  apply configure_leds_returns with 6; try assumption; lia.
Qed.

(** ** [cat3626_configure]: properties *)

Lemma configure_success n cl pdata s s' :
  chip_leds s = Some n ->
  cat3626_configure cl pdata s = Ok (0, s') ->
  exists s1,
    configure_partners (Z.to_nat n) 0 s = Ok (tt, s1) /\
    configure_leds (Z.to_nat n) cl pdata 0 s1 = Ok (0, s').
Proof.
  intros Hn H. unfold cat3626_configure in H.
  apply bind_inv in H as (n' & s0 & Hg & H).
  rewrite (get_num_leds_ok _ _ Hn) in Hg. injection Hg as <- <-.
  apply bind_inv in H as ([] & s1 & H1 & H).
  now exists s1.
Qed.

(** LED [j] of a chip with six channels once [cat3626_configure] has
    returned 0: the LED the partner loop left, prepared and registered. *)
Lemma configure_success_led cl pdata s s' j :
  chip_leds s = Some 6 ->
  cat3626_configure cl pdata s = Ok (0, s') ->
  0 <= j <= 5 ->
  exists s1 l pled,
    configure_partners 6 0 s = Ok (tt, s1) /\
    led_of s1 j = Some l /\
    led_of s' j = Some (mark_registered true (prepared cl pled j l)).
Proof.
  intros Hn H Hj.
  destruct (configure_success _ _ _ _ _ Hn H) as (s1 & H1 & H2).
  change (Z.to_nat 6) with 6%nat in H1, H2.
  destruct (configure_partners_success 6 _ _ _ _ Hn (Z.le_refl 0) H1)
    as (Hn1 & _).
  destruct (configure_leds_success 6 _ _ _ _ _ _ Hn1 (Z.le_refl 0) H2)
    as (_ & Hup).
  destruct (Hup j) as (l & pled & Hl & Hl'); [lia|].
  now exists s1, l, pled.
Qed.

(** C3.  Once [cat3626_configure] has returned 0 on a chip with six
    channels, for k in 0..2 channels 2k and 2k+1 both have current
    register k, which is their id shifted right by one, and each has the
    other as its partner. *)
Theorem C3_pairing (cl : Z) (pdata : cat3626_platform_data) (s s' : system)
    (k : Z) :
  chip_leds s = Some 6 ->
  cat3626_configure cl pdata s = Ok (0, s') ->
  0 <= k <= 2 ->
    exists a b,
      led_of s' (2 * k) = Some a /\
      led_of s' (2 * k + 1) = Some b /\
      id a = 2 * k /\ id b = 2 * k + 1 /\
      i2c_reg a = k /\ i2c_reg b = k /\
      Z.shiftr (id a) 1 = k /\ Z.shiftr (id b) 1 = k /\
      partner a = Some (2 * k + 1) /\ partner b = Some (2 * k).
Proof.
  intros Hn H Hk.
  destruct (configure_success_led cl pdata s s' (2 * k) Hn H)
    as (s1 & la & pa & H1 & Hla & Ha); [lia|].
  destruct (configure_success_led cl pdata s s' (2 * k + 1) Hn H)
    as (s1' & lb & pb & H1' & Hlb & Hb); [lia|].
  rewrite H1 in H1'. injection H1' as <-.
  destruct (configure_partners_success 6 _ _ _ _ Hn (Z.le_refl 0) H1)
    as (_ & _ & _ & _ & Hpairs).
  destruct (Hpairs k) as (a0 & b0 & Ha0 & Hb0 & Hpa & Hpb & Hra & Hrb);
    [lia | lia |].
  change (0 + 2 * k) with (2 * k) in *.
  rewrite Hla in Ha0. injection Ha0 as <-.
  rewrite Hlb in Hb0. injection Hb0 as <-.
  eexists. eexists. split; [exact Ha|]. split; [exact Hb|].
  simpl. rewrite Hra, Hrb, Hpa, Hpb.
  assert (Hcases : k = 0 \/ k = 1 \/ k = 2) by lia.
  destruct Hcases as [ -> | [ -> | -> ] ]; repeat split; reflexivity.
Qed.

Lemma C3_pairing_witness :
  exists a b,
    led_of configured (2 * 1) = Some a /\
    led_of configured (2 * 1 + 1) = Some b /\
    id a = 2 * 1 /\ id b = 2 * 1 + 1 /\
    i2c_reg a = 1 /\ i2c_reg b = 1 /\
    Z.shiftr (id a) 1 = 1 /\ Z.shiftr (id b) 1 = 1 /\
    partner a = Some (2 * 1 + 1) /\ partner b = Some (2 * 1).
Proof.
  apply (C3_pairing 102 board_pdata (allocated []) configured 1).
  - reflexivity.
  - vm_compute. reflexivity.
  - lia.
Defined.

(** C9.  Once [cat3626_configure] has returned 0 on a chip with six
    channels, every channel's class device has a maximum brightness of
    39 << 3, which is 312, and a brightness of [LED_OFF], which is 0. *)
Theorem C9_exposed_brightness (cl : Z) (pdata : cat3626_platform_data)
    (s s' : system) (i : Z) :
  chip_leds s = Some 6 ->
  cat3626_configure cl pdata s = Ok (0, s') ->
  0 <= i <= 5 ->
    exists l,
      led_of s' i = Some l /\
      max_brightness (ldev l) = Z.shiftl 39 3 /\
      max_brightness (ldev l) = 312 /\
      brightness (ldev l) = LED_OFF /\
      brightness (ldev l) = 0.
Proof.
  intros Hn H Hi.
  destruct (configure_success_led cl pdata s s' i Hn H Hi)
    as (s1 & l & pled & _ & _ & Hl).
  eexists. split; [exact Hl|]. repeat split; reflexivity.
Qed.

Lemma C9_exposed_brightness_witness :
  exists l,
    led_of configured 3 = Some l /\
    max_brightness (ldev l) = Z.shiftl 39 3 /\
    max_brightness (ldev l) = 312 /\
    brightness (ldev l) = LED_OFF /\
    brightness (ldev l) = 0.
Proof.
  apply (C9_exposed_brightness 102 board_pdata (allocated []) configured 3).
  - reflexivity.
  - vm_compute. reflexivity.
  - lia.
Defined.

(** ** Set-up and tear-down: the code at failing inputs *)

(** C4: the code at a failing input.  The LED core accepts channels 0
    and 1 and refuses channel 2 with -16: [cat3626_configure] returns
    -16, and channels 0 and 1 are still registered; the roll-back went
    to channel 2 alone. *)
Theorem C4_rollback_leaves_registered :
  exists s',
    cat3626_configure 102 board_pdata (allocated [0; 0; -16]) = Ok (-16, s') /\
    map is_registered (all_leds s') =
      [true; true; false; false; false; false].
Proof.
  eexists. split; [vm_compute; reflexivity | reflexivity].
Qed.

(** C8: the code at a failing input.  On a bound chip with a request
    queued for channel 0, [cat3626_remove] stops at index 6 of the LED
    array with the state untouched: all six channels are still
    registered and the work of channel 0 is still queued. *)
Theorem C8_remove_reaches_no_channel :
  cat3626_remove busy = Crash (OutOfBounds 6) busy /\
  map is_registered (all_leds busy) = [true; true; true; true; true; true] /\
  map is_pending (all_leds busy) = [true; false; false; false; false; false].
Proof.
  split; [vm_compute; reflexivity | split; reflexivity].
Qed.

(** C10: the code at a failing input.  On a bound chip,
    [cat3626_remove] passes the channel count 6 to
    [cat3626_destroy_devices], which uses it as the index: the access
    is outside the six-element array. *)
Theorem C10_remove_index_past_array :
  chip_leds configured = Some 6 /\
  length (all_leds configured) = 6%nat /\
  in_array (all_leds configured) 6 = false /\
  cat3626_remove configured = Crash (OutOfBounds 6) configured.
Proof.
  repeat split; vm_compute; reflexivity.
Qed.

(** ** The driver at work *)

(** Binding the chip: [cat3626_probe] allocates, pairs, registers and
    switches every channel off; with the enable register at 0 this
    takes six reads and no write. *)
Example probe_binds :
  cat3626_probe 102 (Some board_pdata) true true cat3626 unbound
    = Ok (0, configured) /\
  writes (trace (bus configured)) = [] /\
  length (trace (bus configured)) = 6%nat.
Proof. repeat split; vm_compute; reflexivity. Qed.

(** Full brightness on channel 4: level 31 goes to register C and bit 4
    of the enable register is set once the queued work has run. *)
Example full_brightness_on_channel_4 :
  let s := state_after (run_work 4) (state_after (cat3626_brightness_set 4 255) configured) in
  option_map present_reg_value (led_of s 4) = Some 31 /\
  regs (bus s) ADDR_REGEN = 16 /\
  regs (bus s) ADDR_REG_C = 31 /\
  map is_pending (all_leds s) = [false; false; false; false; false; false].
Proof. repeat split; vm_compute; reflexivity. Qed.

(** ** More on the register update *)

(** X1.  Whatever the bus does, [cat3626_setled] changes no register
    other than the enable register and the channel's own current
    register. *)
Theorem setled_other_registers (led : cat3626_led) (b : i2c_bus) (a : Z) :
  a <> ADDR_REGEN ->
  a <> to_u8 (i2c_reg led) ->
  regs (cat3626_setled led b) a = regs b a.
Proof.
  intros Hen Hcur.
  unfold cat3626_setled, i2c_smbus_read_byte_data, i2c_smbus_write_byte_data.
  change (to_u8 ADDR_REGEN) with ADDR_REGEN.
  destruct (negb _), (0 <? present_reg_value led); simpl;
    repeat match goal with
           | |- context [next_fault ?fs] => destruct (next_fault fs); simpl
           end;
    unfold write_reg; eqb_cases; reflexivity.
Qed.

Lemma setled_other_registers_witness :
  regs (cat3626_setled (demo_led 2 10) failing_bus) ADDR_REG_A =
  regs failing_bus ADDR_REG_A.
Proof.
  apply (setled_other_registers (demo_led 2 10) failing_bus ADDR_REG_A).
  - vm_compute. discriminate.
  - vm_compute. discriminate.
Defined.

(** X2.  Whatever the bus does, one [cat3626_setled] makes one read, of
    the enable register, and after it at most two transactions, all of
    them writes, to the enable register or to the channel's current
    register. *)
Theorem setled_transactions (led : cat3626_led) (b : i2c_bus) :
  exists r ops,
    trace (cat3626_setled led b) = trace b ++ BusRead ADDR_REGEN r :: ops /\
    (length ops <= 2)%nat /\
    forall op, In op ops ->
      exists c v e, op = BusWrite c v e /\
                    (c = ADDR_REGEN \/ c = to_u8 (i2c_reg led)).
Proof.
  destruct (setled_trace_any led b) as (r1 & r2 & Ht).
  eexists. eexists. split; [exact Ht|].
  destruct (_ =? _), (0 <? present_reg_value led); simpl;
    (split; [lia|]); intros op Hin; simpl in Hin;
    repeat destruct Hin as [<-|Hin]; try contradiction; eauto 8.
Qed.








(** X5.  The two channels of a pair share their current register: on a
    bus where nothing fails, when channel 2k is updated at a level above
    0 and then channel 2k+1 at another level above 0, both enable bits
    are set and register k holds the second level, which is now the
    current of channel 2k as well. *)
Theorem setled_partner_overrides (k : Z) (a p : cat3626_led) (b : i2c_bus) :
  bus_healthy b ->
  0 <= k <= 2 ->
  id a = 2 * k -> i2c_reg a = k -> 0 < present_reg_value a ->
  id p = 2 * k + 1 -> i2c_reg p = k -> 0 < present_reg_value p ->
  let b2 := cat3626_setled p (cat3626_setled a b) in
  regs b2 k = to_u8 (present_reg_value p) /\
  enable_bit b2 (2 * k) = true /\
  enable_bit b2 (2 * k + 1) = true.
Proof.
  intros Hb Hk Hida Hra Hla Hidp Hrp Hlp b2.
  pose proof (setled_stays_healthy a b Hb) as Hba.
  assert (Hza : (0 =? present_reg_value a) = false) by (apply Z.eqb_neq; lia).
  assert (Hzp : (0 =? present_reg_value p) = false) by (apply Z.eqb_neq; lia).
  split; [|split]; unfold b2.
  - rewrite (setled_regs p _ Hba k), Hrp, (to_u8_byte k) by lia.
    replace (0 <? present_reg_value p) with true
      by (symmetry; now apply Z.ltb_lt).
    now rewrite Z.eqb_refl.
  - rewrite (setled_enable_bit p _ Hba) by lia. rewrite Hzp.
    rewrite (setled_enable_bit a b Hb) by lia. rewrite Hza, Hida, Z.eqb_refl.
    now rewrite orb_true_r.
  - rewrite (setled_enable_bit p _ Hba) by lia.
    rewrite Hzp, Hidp, Z.eqb_refl. apply orb_true_r.
Qed.

Lemma setled_partner_overrides_witness :
  let b2 := cat3626_setled (demo_led 3 20) (cat3626_setled (demo_led 2 10) quiet_bus) in
  regs b2 1 = to_u8 (present_reg_value (demo_led 3 20)) /\
  enable_bit b2 (2 * 1) = true /\
  enable_bit b2 (2 * 1 + 1) = true.
Proof.
  apply (setled_partner_overrides 1 (demo_led 2 10) (demo_led 3 20) quiet_bus).
  - constructor.
  - lia.
  - reflexivity.
  - reflexivity.
  - vm_compute. reflexivity.
  - reflexivity.
  - reflexivity.
  - vm_compute. reflexivity.
Defined.

(** ** More on brightness requests *)

Lemma with_led_twice i x y s :
  with_led i x (with_led i y s) = with_led i x s.
Proof.
  unfold with_led. simpl. destruct (clientdata s) as [d|]; [|reflexivity].
  simpl. now rewrite list_insert_insert_eq.
Qed.

(** X6.  [cat3626_brightness_set] stays off the bus: it makes no
    transaction and leaves the registers alone; it queues the channel's
    work, and it changes nothing else of the channel (id, current
    register, partner, class device) and nothing of the other
    channels. *)
Theorem brightness_set_frame (s : system) (i : Z) (l : cat3626_led) (value : Z) :
  led_of s i = Some l ->
  exists s' l',
    cat3626_brightness_set i value s = Ok (tt, s') /\
    bus s' = bus s /\
    classdev_script s' = classdev_script s /\
    (forall j, j <> i -> led_of s' j = led_of s j) /\
    led_of s' i = Some l' /\
    is_pending l' = true /\
    id l' = id l /\ i2c_reg l' = i2c_reg l /\ partner l' = partner l /\
    client l' = client l /\ name l' = name l /\ ldev l' = ldev l.
Proof.
  intros Hl. pose proof (led_of_range _ _ _ Hl) as Hi.
  eexists. eexists. split; [apply (brightness_set_ok s i l value Hl)|].
  split; [reflexivity|]. split; [reflexivity|]. split.
  { intros j Hj. rewrite !led_of_with_led by lia. now eqb_cases. }
  split.
  { rewrite !led_of_with_led by lia. now rewrite Z.eqb_refl, Hl. }
  repeat split; reflexivity.
Qed.

Lemma brightness_set_frame_witness :
  exists s' l',
    cat3626_brightness_set 4 200 (bound_on quiet_bus 0) = Ok (tt, s') /\
    bus s' = bus (bound_on quiet_bus 0) /\
    classdev_script s' = classdev_script (bound_on quiet_bus 0) /\
    (forall j, j <> 4 -> led_of s' j = led_of (bound_on quiet_bus 0) j) /\
    led_of s' 4 = Some l' /\
    is_pending l' = true /\
    id l' = id (demo_led 4 0) /\ i2c_reg l' = i2c_reg (demo_led 4 0) /\
    partner l' = partner (demo_led 4 0) /\
    client l' = client (demo_led 4 0) /\ name l' = name (demo_led 4 0) /\
    ldev l' = ldev (demo_led 4 0).
Proof.
  apply (brightness_set_frame (bound_on quiet_bus 0) 4 (demo_led 4 0) 200).
  reflexivity.
Defined.

(** X7.  Of two brightness requests for a channel made one after the
    other, only the second one counts: the state is the one the second
    request alone would have left, with one piece of work queued. *)
Theorem brightness_set_last_wins (s : system) (i : Z) (l : cat3626_led)
    (v1 v2 : Z) :
  led_of s i = Some l ->
  exists s2,
    (do _ <- cat3626_brightness_set i v1; cat3626_brightness_set i v2) s
      = Ok (tt, s2) /\
    cat3626_brightness_set i v2 s = Ok (tt, s2).
Proof.
  intros Hl. pose proof (led_of_range _ _ _ Hl) as Hi.
  eexists. split.
  - unfold bind. rewrite (brightness_set_ok s i l v1 Hl).
    erewrite brightness_set_ok
      by (rewrite !led_of_with_led by lia; rewrite Z.eqb_refl, Hl; reflexivity).
    rewrite !with_led_twice. reflexivity.
  - rewrite (brightness_set_ok s i l v2 Hl).
    rewrite !with_led_twice. reflexivity.
Qed.

Lemma brightness_set_last_wins_witness :
  exists s2,
    (do _ <- cat3626_brightness_set 4 200; cat3626_brightness_set 4 40)
      (bound_on quiet_bus 0) = Ok (tt, s2) /\
    cat3626_brightness_set 4 40 (bound_on quiet_bus 0) = Ok (tt, s2).
Proof.
  apply (brightness_set_last_wins (bound_on quiet_bus 0) 4 (demo_led 4 0)
           200 40).
  reflexivity.
Defined.

(** X8.  Over the whole range the class device announces, 0 up to
    [max_brightness] = 39 << 3, the level stored is the brightness
    shifted right by 3 with no clamping, and the top level 39 is reached
    at [max_brightness] only. *)
Theorem brightness_set_full_range (s : system) (i : Z) (l : cat3626_led)
    (value : Z) :
  led_of s i = Some l ->
  max_brightness (ldev l) = Z.shiftl 39 3 ->
  0 <= value <= max_brightness (ldev l) ->
  exists s' l',
    cat3626_brightness_set i value s = Ok (tt, s') /\
    led_of s' i = Some l' /\
    present_reg_value l' = Z.shiftr value 3 /\
    (present_reg_value l' = 39 <-> value = max_brightness (ldev l)).
Proof.
  intros Hl Hmax Hv. pose proof (led_of_range _ _ _ Hl) as Hi.
  rewrite Hmax in *. change (Z.shiftl 39 3) with 312 in *.
  assert (Hsh : Z.shiftr value 3 = value / 8)
    by (rewrite Z.shiftr_div_pow2 by lia; reflexivity).
  eexists. eexists. split; [apply (brightness_set_ok s i l value Hl)|].
  split; [rewrite !led_of_with_led by lia; now rewrite Z.eqb_refl, Hl|].
  simpl present_reg_value. rewrite Hsh.
  replace (value / 8 >? 39) with false
    by (symmetry; rewrite Z.gtb_ltb; apply Z.ltb_ge;
        Z.div_mod_to_equations; lia).
  split; [reflexivity|]. split; intros H; Z.div_mod_to_equations; lia.
Qed.

Lemma brightness_set_full_range_witness :
  exists s' l',
    cat3626_brightness_set 4 312 (bound_on quiet_bus 0) = Ok (tt, s') /\
    led_of s' 4 = Some l' /\
    present_reg_value l' = Z.shiftr 312 3 /\
    (present_reg_value l' = 39 <-> 312 = max_brightness (ldev (demo_led 4 0))).
Proof.
  apply (brightness_set_full_range (bound_on quiet_bus 0) 4 (demo_led 4 0) 312).
  - reflexivity.
  - reflexivity.
  - vm_compute. split; discriminate.
Defined.

(** X9.  The stored level grows with the brightness asked for: a larger
    request never gives a smaller level. *)
Theorem brightness_set_monotone (s : system) (i : Z) (l : cat3626_led)
    (v1 v2 : Z) (s1 s2 : system) (l1 l2 : cat3626_led) :
  led_of s i = Some l ->
  v1 <= v2 ->
  cat3626_brightness_set i v1 s = Ok (tt, s1) -> led_of s1 i = Some l1 ->
  cat3626_brightness_set i v2 s = Ok (tt, s2) -> led_of s2 i = Some l2 ->
  present_reg_value l1 <= present_reg_value l2.
Proof.
  intros Hl Hv H1 Hl1 H2 Hl2. pose proof (led_of_range _ _ _ Hl) as Hi.
  rewrite (brightness_set_ok s i l v1 Hl) in H1. injection H1 as <-.
  rewrite (brightness_set_ok s i l v2 Hl) in H2. injection H2 as <-.
  rewrite !led_of_with_led, Z.eqb_refl, Hl in Hl1, Hl2 by lia.
  injection Hl1 as <-. injection Hl2 as <-. simpl.
  rewrite !Z.shiftr_div_pow2 by lia. change (2 ^ 3) with 8.
  assert (v1 / 8 <= v2 / 8) by (apply Z.div_le_mono; lia).
  destruct (Z.gtb_spec (v1 / 8) 39), (Z.gtb_spec (v2 / 8) 39); lia.
Qed.

Lemma brightness_set_monotone_witness :
  present_reg_value
    (set_work (set_pending true (work (demo_led 4 0)))
       (set_present_reg_value 5 (demo_led 4 0))) <=
  present_reg_value
    (set_work (set_pending true (work (demo_led 4 0)))
       (set_present_reg_value 25 (demo_led 4 0))).
Proof.
  apply (brightness_set_monotone (bound_on quiet_bus 0) 4 (demo_led 4 0)
           40 200
           (state_after (cat3626_brightness_set 4 40) (bound_on quiet_bus 0))
           (state_after (cat3626_brightness_set 4 200) (bound_on quiet_bus 0))).
  - reflexivity.
  - lia.
  - reflexivity.
  - reflexivity.
  - reflexivity.
  - reflexivity.
Defined.

(** ** A request and its work *)

(** X10.  A brightness request followed by the channel's work, on a bus
    where nothing fails, for channel i of 0..5 laid out as
    [cat3626_configure] does (id i, current register i >> 1): the
    channel's enable bit ends up set exactly when the brightness is 8 or
    more, in which case the current register holds the brightness
    shifted right by 3; below 8 no current register changes; the enable
    bits of the other channels are as before. *)
Theorem request_then_work (s : system) (i : Z) (l : cat3626_led) (value : Z) :
  led_of s i = Some l ->
  0 <= i <= 5 ->
  id l = i -> i2c_reg l = Z.shiftr i 1 ->
  bus_healthy (bus s) ->
  0 <= value <= 255 ->
  exists s2,
    (do _ <- cat3626_brightness_set i value; cat3626_led_work i) s
      = Ok (tt, s2) /\
    enable_bit (bus s2) i = (8 <=? value) /\
    (8 <= value -> regs (bus s2) (Z.shiftr i 1) = Z.shiftr value 3) /\
    (value < 8 ->
     forall a, a <> ADDR_REGEN -> regs (bus s2) a = regs (bus s) a) /\
    (forall n, 0 <= n < 8 -> n <> i ->
       enable_bit (bus s2) n = enable_bit (bus s) n).
Proof.
  intros Hl Hi Hid Hreg Hb Hv.
  assert (Hsh : Z.shiftr value 3 = value / 8)
    by (rewrite Z.shiftr_div_pow2 by lia; reflexivity).
  assert (Hr : 0 <= Z.shiftr i 1 <= 2).
  { rewrite Z.shiftr_div_pow2 by lia. change (2 ^ 1) with 2.
    Z.div_mod_to_equations. lia. }
  assert (Hcap : (value / 8 >? 39) = false).
  { rewrite Z.gtb_ltb. apply Z.ltb_ge. Z.div_mod_to_equations. lia. }
  set (l1 := set_present_reg_value (value / 8) l).
  set (l2 := set_work (set_pending true (work l1)) l1).
  assert (Hrun : (do _ <- cat3626_brightness_set i value; cat3626_led_work i) s
                 = Ok (tt, with_bus (cat3626_setled l2 (bus s))
                             (with_led i l2 (with_led i l1 s)))).
  { unfold bind. rewrite (brightness_set_ok s i l value Hl).
    rewrite Hsh, Hcap. fold l1. fold l2.
    now rewrite (led_work_ok _ i l2)
      by (rewrite !led_of_with_led by lia; now rewrite Z.eqb_refl, Hl). }
  eexists. split; [exact Hrun|]. simpl bus.
  assert (Hid2 : id l2 = i) by exact Hid.
  assert (Hreg2 : i2c_reg l2 = Z.shiftr i 1) by exact Hreg.
  assert (Hlvl2 : present_reg_value l2 = value / 8) by reflexivity.
  split; [|split; [|split]].
  - rewrite (setled_enable_bit l2 (bus s) Hb) by lia.
    rewrite Hlvl2, Hid2, Z.eqb_refl.
    destruct (Z.eqb_spec 0 (value / 8)) as [E|E];
      destruct (Z.leb_spec 8 value); rewrite ?andb_false_r, ?orb_true_r;
      try reflexivity; exfalso; Z.div_mod_to_equations; lia.
  - intros H8. rewrite (setled_regs l2 (bus s) Hb).
    rewrite Hlvl2, Hreg2, (to_u8_byte (Z.shiftr i 1)), Z.eqb_refl by lia.
    replace (0 <? value / 8) with true
      by (symmetry; apply Z.ltb_lt; Z.div_mod_to_equations; lia).
    simpl andb. cbv iota. rewrite Hsh. apply to_u8_byte.
    Z.div_mod_to_equations. lia.
  - intros H8 a Ha. rewrite (setled_regs l2 (bus s) Hb).
    rewrite Hlvl2.
    replace (0 <? value / 8) with false
      by (symmetry; apply Z.ltb_ge; Z.div_mod_to_equations; lia).
    replace (a =? ADDR_REGEN) with false by (symmetry; now apply Z.eqb_neq).
    reflexivity.
  - intros n Hn Hne. rewrite (setled_enable_bit l2 (bus s) Hb) by lia.
    rewrite Hid2.
    replace (i =? n) with false by (symmetry; apply Z.eqb_neq; congruence).
    destruct (0 =? present_reg_value l2);
      [apply andb_true_r | apply orb_false_r].
Qed.

Lemma request_then_work_witness :
  exists s2,
    (do _ <- cat3626_brightness_set 4 200; cat3626_led_work 4)
      (bound_on quiet_bus 0) = Ok (tt, s2) /\
    enable_bit (bus s2) 4 = (8 <=? 200) /\
    (8 <= 200 -> regs (bus s2) (Z.shiftr 4 1) = Z.shiftr 200 3) /\
    (200 < 8 ->
     forall a, a <> ADDR_REGEN ->
       regs (bus s2) a = regs (bus (bound_on quiet_bus 0)) a) /\
    (forall n, 0 <= n < 8 -> n <> 4 ->
       enable_bit (bus s2) n = enable_bit (bus (bound_on quiet_bus 0)) n).
Proof.
  apply (request_then_work (bound_on quiet_bus 0) 4 (demo_led 4 0) 200).
  - reflexivity.
  - lia.
  - reflexivity.
  - reflexivity.
  - constructor.
  - lia.
Defined.

(** ** More on set-up *)

Lemma led_classdev_register_inv_script s i err s' :
  led_classdev_register i s = Ok (err, s') ->
  exists l, led_of s i = Some l /\
    ((next_fault (classdev_script s) = Some err /\ s' = pop_script s) \/
     (next_fault (classdev_script s) = None /\ err = 0 /\
      s' = with_led i (mark_registered true l) (pop_script s))).
Proof.
  unfold led_classdev_register. intros H.
  apply bind_inv in H as (l & s1 & Hl & H).
  apply led_at_inv in Hl as (Hl & ->).
  fold (pop_script s) in H. exists l. split; [assumption|].
  destruct (next_fault (classdev_script s)) as [e|] eqn:E.
  - injection H as <- <-. now left.
  - right. unfold bind in H.
    rewrite (store_led_ok (pop_script s) i l _ Hl) in H.
    injection H as <- <-. now repeat split.
Qed.

(** One turn of the registration loop that has returned: either the
    LED core refused channel [i] and its errno is the result, or the
    channel was prepared, registered and switched, and the loop went on
    from the state [s8]. *)
Lemma configure_leds_turn n cl pdata fuel i s r s' :
  chip_leds s = Some n -> 0 <= i < n ->
  configure_leds (S fuel) cl pdata i s = Ok (r, s') ->
  exists l pled,
    led_of s i = Some l /\
    pdata_leds pdata !! Z.to_nat i = Some pled /\
    (next_fault (classdev_script s) = Some r \/
     (next_fault (classdev_script s) = None /\
      exists s8,
        configure_leds fuel cl pdata (i + 1) s8 = Ok (r, s') /\
        chip_leds s8 = Some n /\
        bus s8 = cat3626_setled (mark_registered true (prepared cl pled i l))
                   (bus s) /\
        classdev_script s8 = tail (classdev_script s) /\
        forall j, led_of s8 j =
                  if i =? j
                  then Some (mark_registered true (prepared cl pled i l))
                  else led_of s j)).
Proof.
  intros Hn Hi H. rewrite configure_leds_eq in H.
  apply bind_inv in H as (n' & s0 & Hg & H).
  rewrite (get_num_leds_ok _ _ Hn) in Hg. injection Hg as <- <-.
  replace (i <? n) with true in H by (symmetry; apply Z.ltb_lt; lia).
  apply bind_inv in H as (pled & s0 & Hp & H).
  assert (pdata_leds pdata !! Z.to_nat i = Some pled /\ s0 = s) as [Hpl ->].
  { unfold pdata_led_at in Hp.
    destruct (pdata_leds pdata !! Z.to_nat i); [|discriminate].
    destruct (in_array _ _); [|discriminate]. now injection Hp as -> ->. }
  apply bind_inv in H as ([] & s1 & H1 & H).
  apply bind_inv in H as ([] & s2 & H2 & H).
  apply bind_inv in H as ([] & s3 & H3 & H).
  apply bind_inv in H as ([] & s4 & H4 & H).
  apply bind_inv in H as ([] & s5 & H5 & H).
  apply bind_inv in H as (err & s6 & H6 & H).
  assert (Hbus : bus s5 = bus s /\ classdev_script s5 = classdev_script s).
  { unfold INIT_WORK in H5.
    apply modify_led_inv in H1 as (? & _ & ->).
    apply modify_led_inv in H2 as (? & _ & ->).
    apply modify_led_inv in H3 as (? & _ & ->).
    apply modify_led_inv in H4 as (? & _ & ->).
    apply modify_led_inv in H5 as (? & _ & ->). now split. }
  destruct Hbus as (Hbus & Hscr).
  destruct (prepare_inv _ _ _ _ _ _ _ _ _ (proj1 Hi) H1 H2 H3 H4 H5)
    as (Hc & (l & Hl & Hl5) & Hframe).
  exists l, pled. split; [assumption|]. split; [assumption|].
  apply led_classdev_register_inv_script in H6
    as (l5 & Hl5' & [(Hf & ->)|(Hf & -> & ->)]).
  - left. rewrite Hscr in Hf.
    pose proof (next_fault_negative _ _ Hf) as Hneg.
    replace (err <? 0) with true in H by (symmetry; now apply Z.ltb_lt).
    apply bind_inv in H as (r0 & s7 & _ & H). injection H as <- _.
    assumption.
  - right. rewrite Hscr in Hf. split; [assumption|].
    rewrite Hl5 in Hl5'. injection Hl5' as <-.
    change (0 <? 0) with false in H. cbv iota in H.
    apply bind_inv in H as (led & s7 & H7 & H).
    apply led_at_inv in H7 as (H7 & ->).
    apply bind_inv in H as ([] & s8 & H8 & H).
    rewrite on_bus_ok in H8. injection H8 as <-.
    rewrite led_of_with_led, Z.eqb_refl, led_of_pop_script, Hl5 in H7 by lia.
    injection H7 as <-.
    eexists. split; [exact H|].
    split.
    { rewrite chip_leds_with_bus, chip_leds_with_led, chip_leds_pop_script.
      congruence. }
    split; [simpl; now rewrite Hbus|].
    split; [simpl; now rewrite Hscr|].
    intros j. rewrite led_of_with_bus, led_of_with_led by lia.
    rewrite !led_of_pop_script, Hl5.
    destruct (Z.eqb_spec i j) as [_|Hne]; [reflexivity|].
    apply Hframe. congruence.
Qed.

(** What the registration loop returns, read off the LED core's
    answers. *)
Lemma configure_leds_value n cl pdata fuel :
  forall i s r s',
    chip_leds s = Some n -> 0 <= i ->
    configure_leds fuel cl pdata i s = Ok (r, s') ->
    r = match first_refusal (Z.to_nat (n - i)) (classdev_script s) with
        | Some e => e
        | None => 0
        end.
Proof.
  induction fuel as [|fuel IH]; intros i s r s' Hn Hi H.
  - rewrite configure_leds_eq in H.
    apply bind_inv in H as (n' & s0 & Hg & H).
    rewrite (get_num_leds_ok _ _ Hn) in Hg. injection Hg as <- <-.
    destruct (Z.ltb_spec i n) as [Hlt|Hge]; [discriminate|].
    injection H as <- _.
    now replace (Z.to_nat (n - i)) with 0%nat by lia.
  - destruct (Z.lt_ge_cases i n) as [Hlt|Hge].
    + destruct (configure_leds_turn n cl pdata fuel i s r s' Hn
                  (conj Hi Hlt) H)
        as (l & pled & _ & _ & [Hf|(Hf & s8 & H8 & Hn8 & _ & Hscr & _)]);
        replace (Z.to_nat (n - i)) with (S (Z.to_nat (n - (i + 1)))) by lia;
        simpl; rewrite Hf; [reflexivity|].
      rewrite <- Hscr. apply (IH (i + 1) s8 r s'); [assumption | lia | assumption].
    + rewrite configure_leds_eq in H.
      apply bind_inv in H as (n' & s0 & Hg & H).
      rewrite (get_num_leds_ok _ _ Hn) in Hg. injection Hg as <- <-.
      replace (i <? n) with false in H by (symmetry; apply Z.ltb_ge; lia).
      injection H as <- _.
      now replace (Z.to_nat (n - i)) with 0%nat by lia.
Qed.

(** X13.  On a chip with six channels and six platform entries,
    [cat3626_configure] returns, and what it returns is decided by the
    LED core alone, whatever the bus does: the errno of the first
    refusal among its next six answers, or 0 when it refuses none. *)
Theorem configure_return_value (cl : Z) (pdata : cat3626_platform_data)
    (s : system) :
  chip_leds s = Some 6 ->
  present 6 s ->
  6 <= Z.of_nat (length (pdata_leds pdata)) ->
  exists s',
    cat3626_configure cl pdata s =
      Ok (match first_refusal 6 (classdev_script s) with
          | Some e => e
          | None => 0
          end, s').
Proof.
  intros Hc Hp Hpd.
  destruct (configure_returns cl pdata s Hc Hp Hpd) as (r & s' & Hrun & _).
  exists s'. rewrite Hrun. f_equal. f_equal.
  unfold cat3626_configure in Hrun.
  apply bind_inv in Hrun as (n' & s0 & Hg & H).
  rewrite (get_num_leds_ok _ _ Hc) in Hg. injection Hg as <- <-.
  apply bind_inv in H as ([] & s1 & H1 & H).
  destruct (configure_partners_success 6 _ _ _ _ Hc (Z.le_refl 0) H1)
    as (Hc1 & _ & Hscr & _).
  rewrite <- Hscr.
  apply (configure_leds_value 6 cl pdata _ 0 s1 r s' Hc1 (Z.le_refl 0) H).
Qed.

Lemma configure_return_value_witness :
  exists s',
    cat3626_configure 102 board_pdata (allocated [0; 0; -16; 0; -5]) =
      Ok (match first_refusal 6 (classdev_script (allocated [0; 0; -16; 0; -5])) with
          | Some e => e
          | None => 0
          end, s').
Proof.
  apply (configure_return_value 102 board_pdata (allocated [0; 0; -16; 0; -5])).
  - reflexivity.
  - intros j Hj.
    assert (Hc : j = 0 \/ j = 1 \/ j = 2 \/ j = 3 \/ j = 4 \/ j = 5) by lia.
    destruct Hc as [ -> | [ -> | [ -> | [ -> | [ -> | -> ] ] ] ] ];
      eexists; reflexivity.
  - vm_compute. discriminate.
Defined.

(** The partner loop writes the pairing fields and nothing else. *)
Lemma modify_led_unpaired s i f s' :
  modify_led i f s = Ok (tt, s') ->
  (forall l, unpaired (f l) = unpaired l) ->
  forall j, option_map unpaired (led_of s' j) = option_map unpaired (led_of s j).
Proof.
  intros H Hf j. apply modify_led_inv in H as (l & Hl & ->).
  pose proof (led_of_range _ _ _ Hl) as Hi.
  rewrite led_of_with_led by assumption.
  destruct (Z.eqb_spec i j) as [<-|_]; [|reflexivity].
  rewrite Hl. simpl. now rewrite Hf.
Qed.

Lemma configure_partners_keeps n fuel :
  forall i s s',
    chip_leds s = Some n ->
    configure_partners fuel i s = Ok (tt, s') ->
    forall j, option_map unpaired (led_of s' j) = option_map unpaired (led_of s j).
Proof.
  induction fuel as [|fuel IH]; intros i s s' Hn H j;
    rewrite configure_partners_eq in H;
    apply bind_inv in H as (n' & s0 & Hg & H);
    rewrite (get_num_leds_ok _ _ Hn) in Hg; injection Hg as <- <-;
    destruct (Z.ltb_spec i n) as [Hlt|Hge];
    try discriminate;
    try (now injection H as <-).
  apply bind_inv in H as ([] & s1 & H1 & H).
  apply bind_inv in H as ([] & s2 & H2 & H).
  apply bind_inv in H as ([] & s3 & H3 & H).
  apply bind_inv in H as ([] & s4 & H4 & H).
  assert (Hn4 : chip_leds s4 = Some n).
  { apply modify_led_inv in H1 as (? & _ & ->).
    apply modify_led_inv in H2 as (? & _ & ->).
    apply modify_led_inv in H3 as (? & _ & ->).
    apply modify_led_inv in H4 as (? & _ & ->).
    now rewrite !chip_leds_with_led. }
  rewrite (IH _ _ _ Hn4 H j).
  rewrite (modify_led_unpaired _ _ _ _ H4 (fun l => eq_refl) j).
  rewrite (modify_led_unpaired _ _ _ _ H3 (fun l => eq_refl) j).
  rewrite (modify_led_unpaired _ _ _ _ H2 (fun l => eq_refl) j).
  apply (modify_led_unpaired _ _ _ _ H1 (fun l => eq_refl) j).
Qed.



(** The state [cat3626_probe] gives [cat3626_configure]: six zeroed
    LEDs and the chip's table entry. *)
Lemma probe_reaches_configure cl pdata driver s :
  driver = cat3626 ->
  cat3626_probe cl (Some pdata) true true driver s =
    (do _ <- put_data {| data_client := Some cl;
                         leds := replicate 6 zero_led;
                         chip_info := Some {| num_leds := 6 |} |};
     cat3626_configure cl pdata) s.
Proof. intros ->. reflexivity. Qed.


Lemma fresh_present (d : cat3626_data) b sc :
  leds d = replicate 6 zero_led ->
  present 6 {| clientdata := Some d; bus := b; classdev_script := sc |}.
Proof.
  intros Hd j Hj. unfold led_of. cbn [clientdata]. rewrite Hd.
  replace (in_array (replicate 6 zero_led) j) with true
    by (symmetry; apply in_array_range; rewrite length_replicate; lia).
  exists zero_led. apply lookup_replicate. split; [reflexivity | lia].
Qed.



(** LED [j] once the registration loop has returned 0, with the
    platform entry its name came from. *)
Lemma configure_leds_state n cl pdata fuel :
  forall i s s',
    chip_leds s = Some n -> 0 <= i ->
    configure_leds fuel cl pdata i s = Ok (0, s') ->
    forall j, i <= j < n ->
      exists l pled,
        led_of s j = Some l /\
        pdata_leds pdata !! Z.to_nat j = Some pled /\
        led_of s' j = Some (mark_registered true (prepared cl pled j l)).
Proof.
  induction fuel as [|fuel IH]; intros i s s' Hn Hi H j Hj.
  - rewrite configure_leds_eq in H.
    apply bind_inv in H as (n' & s0 & Hg & H).
    rewrite (get_num_leds_ok _ _ Hn) in Hg. injection Hg as <- <-.
    replace (i <? n) with true in H by (symmetry; apply Z.ltb_lt; lia).
    discriminate.
  - destruct (configure_leds_turn n cl pdata fuel i s 0 s' Hn
                ltac:(lia) H)
      as (l & pled & Hl & Hpl & [Hf|(_ & s8 & H8 & Hn8 & _ & _ & Hleds)]).
    { apply next_fault_negative in Hf. lia. }
    destruct (Z.eq_dec j i) as [->|Hne].
    + exists l, pled. split; [assumption|]. split; [assumption|].
      destruct (configure_leds_success n cl pdata fuel (i + 1) s8 s' Hn8
                  ltac:(lia) H8) as (Hlow & _).
      rewrite Hlow by lia. now rewrite Hleds, Z.eqb_refl.
    + destruct (IH (i + 1) s8 s' Hn8 ltac:(lia) H8 j ltac:(lia))
        as (l' & pled' & Hl' & Hpl' & Hs').
      rewrite Hleds in Hl'.
      replace (i =? j) with false in Hl' by (symmetry; apply Z.eqb_neq; lia).
      now exists l', pled'.
Qed.

(** X15.  Once [cat3626_configure] has returned 0 on a chip with six
    channels, every channel j is registered with the LED core under the
    name of platform entry j, carries its index as id, the client, the
    brightness handler and an initialised, idle work item, and has the
    requested level it had before. *)
Theorem configure_registers_all (cl : Z) (pdata : cat3626_platform_data)
    (s s' : system) (j : Z) :
  chip_leds s = Some 6 ->
  cat3626_configure cl pdata s = Ok (0, s') ->
  0 <= j <= 5 ->
  exists l0 pled l,
    led_of s j = Some l0 /\
    pdata_leds pdata !! Z.to_nat j = Some pled /\
    led_of s' j = Some l /\
    is_registered l = true /\
    name l = name pled /\ ldev_name (ldev l) = name pled /\
    id l = j /\ client l = Some cl /\
    brightness_set (ldev l) = Some Fn_cat3626_brightness_set /\
    work l = {| work_func := Some Fn_cat3626_led_work; work_pending := false |} /\
    present_reg_value l = present_reg_value l0 /\
    maximum_reg_value l = maximum_reg_value l0.
Proof.
  intros Hc H Hj.
  destruct (configure_success _ _ _ _ _ Hc H) as (s1 & H1 & H2).
  change (Z.to_nat 6) with 6%nat in H1, H2.
  destruct (configure_partners_success 6 _ _ _ _ Hc (Z.le_refl 0) H1)
    as (Hc1 & _).
  pose proof (configure_partners_keeps 6 _ _ _ _ Hc H1 j) as Hkeep.
  destruct (configure_leds_state 6 cl pdata 6 0 s1 s' Hc1 (Z.le_refl 0) H2 j)
    as (l1 & pled & Hl1 & Hpl & Hl); [lia|].
  rewrite Hl1 in Hkeep.
  destruct (led_of s j) as [l0|] eqn:E0; [|discriminate].
  pose proof (f_equal (fun o => match o with
                                | Some x => present_reg_value x
                                | None => 0
                                end) Hkeep) as Hlvl.
  pose proof (f_equal (fun o => match o with
                                | Some x => maximum_reg_value x
                                | None => 0
                                end) Hkeep) as Hmax.
  simpl in Hlvl, Hmax.
  exists l0, pled. eexists. split; [reflexivity|]. split; [assumption|].
  split; [exact Hl|]. simpl.
  repeat split; try reflexivity; try assumption.
  apply to_u8_byte. lia.
Qed.

Lemma configure_registers_all_witness :
  exists l0 pled l,
    led_of (allocated []) 3 = Some l0 /\
    pdata_leds board_pdata !! Z.to_nat 3 = Some pled /\
    led_of configured 3 = Some l /\
    is_registered l = true /\
    name l = name pled /\ ldev_name (ldev l) = name pled /\
    id l = 3 /\ client l = Some 102 /\
    brightness_set (ldev l) = Some Fn_cat3626_brightness_set /\
    work l = {| work_func := Some Fn_cat3626_led_work; work_pending := false |} /\
    present_reg_value l = present_reg_value l0 /\
    maximum_reg_value l = maximum_reg_value l0.
Proof.
  apply (configure_registers_all 102 board_pdata (allocated []) configured 3).
  - reflexivity.
  - vm_compute. reflexivity.
  - lia.
Defined.

(** X16.  [cat3626_probe] for the chip of the id table always returns,
    with 0 or a negative errno, whatever the bus and the LED core do.
    Without platform data or without SMBus byte transfers it returns
    [-EIO], and without memory [-ENOMEM]; in these cases it has touched
    nothing. *)
Theorem probe_returns (cl : Z) (pdata : option cat3626_platform_data)
    (smbus_ok alloc_ok : bool) (s : system) :
  (forall pd, pdata = Some pd -> 6 <= Z.of_nat (length (pdata_leds pd))) ->
  exists r s',
    cat3626_probe cl pdata smbus_ok alloc_ok cat3626 s = Ok (r, s') /\
    r <= 0 /\
    (pdata = None \/ smbus_ok = false -> r = - EIO /\ s' = s) /\
    (pdata <> None -> smbus_ok = true -> alloc_ok = false ->
     r = - ENOMEM /\ s' = s).
Proof.
  intros Hpd.
  destruct pdata as [pd|];
    [destruct smbus_ok; [destruct alloc_ok|]|].
  - rewrite probe_reaches_configure by reflexivity. unfold bind, put_data.
    match goal with
    | |- context [cat3626_configure _ _ ?st] =>
        destruct (configure_returns cl pd st) as (r & s' & Hrun & Hr)
    end.
    + reflexivity.
    + now apply fresh_present.
    + now apply Hpd.
    + exists r, s'. split; [exact Hrun|]. split; [assumption|].
      split; [intros [?|?]; discriminate | intros _ _ ?; discriminate].
  - exists (- ENOMEM), s. split; [reflexivity|]. split; [unfold ENOMEM; lia|].
    split; [intros [?|?]; discriminate | now intros _ _ _].
  - exists (- EIO), s. split; [reflexivity|]. split; [unfold EIO; lia|].
    split; [now intros _ | intros _ ?; discriminate].
  - exists (- EIO), s. split; [reflexivity|]. split; [unfold EIO; lia|].
    split; [now intros _ | intros ?; congruence].
Qed.

Lemma probe_returns_witness :
  exists r s',
    cat3626_probe 102 (Some board_pdata) true false cat3626 unbound = Ok (r, s') /\
    r <= 0 /\
    (Some board_pdata = None \/ true = false -> r = - EIO /\ s' = unbound) /\
    (Some board_pdata <> None -> true = true -> false = false ->
     r = - ENOMEM /\ s' = unbound).
Proof.
  apply (probe_returns 102 (Some board_pdata) true false unbound).
  intros pd [= <-]. vm_compute. discriminate.
Defined.

(** ** More on tear-down *)

(** X11.  On a client without driver data, [cat3626_destroy_devices]
    returns [-EINVAL] and touches nothing, but [cat3626_remove] never
    gets that far: it reads [data->chip_info] first and stops at the
    NULL pointer. *)
Theorem teardown_without_data (s : system) (n_devs : Z) :
  clientdata s = None ->
  cat3626_destroy_devices n_devs s = Ok (- EINVAL, s) /\
  cat3626_remove s = Crash NullPointer s.
Proof.
  intros Hd. split.
  - unfold cat3626_destroy_devices. now rewrite Hd.
  - unfold cat3626_remove, bind, get_num_leds, bind, get_data.
    now rewrite Hd.
Qed.

Lemma teardown_without_data_witness :
  cat3626_destroy_devices 6 unbound = Ok (- EINVAL, unbound) /\
  cat3626_remove unbound = Crash NullPointer unbound.
Proof.
  apply (teardown_without_data unbound 6). reflexivity.
Defined.


